(** * ORouter: the structured-generation client of [openrouter_text_client.py]

    A shallow embedding of [ModelConfig], [OpenRouterClient.__init__],
    [generate_text], [generate_structured], [generate_structured_list]
    and [_extract_json], with the properties the specification states
    about them.

    Python values are modelled as follows.
    - [str] is a list of Unicode code points ([N]); the literals of the
      source are ASCII and are written with [lit].
    - [int] is [Z]; [float] is the binary64 type [float] of the kernel.
    - An exception is a value of [exn]: its class and its [str(e)].
    - Objects that are shared and mutated ([ModelConfig] instances) live
      in a heap, and a client holds a location. *)

From Stdlib Require Import ZArith NArith Floats String Ascii Lia.
From stdpp Require Import base option list functions gmap.

Local Open Scope N_scope.

(** ** Python [str] *)

Module Str.

Definition str := list N.

(** The code points of an ASCII literal. *)
Definition lit (s : string) : str :=
  map N_of_ascii (list_ascii_of_string s).

Definition nl : N := 10.
Definition space : N := 32.
Definition dquote : N := 34.

(** [str.isspace] on one code point: the table of CPython's
    [_PyUnicode_IsWhitespace]. *)
Definition isspace (c : N) : bool :=
  ((9 <=? c) && (c <=? 13)) || ((28 <=? c) && (c <=? 32))
  || (c =? 133) || (c =? 160) || (c =? 5760)
  || ((8192 <=? c) && (c <=? 8202))
  || (c =? 8232) || (c =? 8233) || (c =? 8239) || (c =? 8287)
  || (c =? 12288).

Fixpoint lstrip (s : str) : str :=
  match s with
  | [] => []
  | c :: s' => if isspace c then lstrip s' else s
  end.

Fixpoint rstrip (s : str) : str :=
  match s with
  | [] => []
  | c :: s' =>
      match rstrip s' with
      | [] => if isspace c then [] else [c]
      | r => c :: r
      end
  end.

(** [s.strip()] *)
Definition strip (s : str) : str := lstrip (rstrip s).

(** [s.startswith(prefix)] *)
Fixpoint startswith (s prefix : str) : bool :=
  match prefix, s with
  | [], _ => true
  | p :: prefix', c :: s' => (c =? p) && startswith s' prefix'
  | _ :: _, [] => false
  end.

(** [s.split(sep)] for a separator of one code point: never empty. *)
Fixpoint split (sep : N) (s : str) : list str :=
  match s with
  | [] => [[]]
  | c :: s' =>
      if c =? sep then [] :: split sep s'
      else match split sep s' with
           | l :: ls => (c :: l) :: ls
           | [] => [[c]]
           end
  end.

(** [sep.join(ls)] *)
Fixpoint join (sep : str) (ls : list str) : str :=
  match ls with
  | [] => []
  | l :: ls' =>
      match ls' with
      | [] => l
      | _ :: _ => l ++ sep ++ join sep ls'
      end
  end.

(** [needle in s] *)
Fixpoint contains (s needle : str) : bool :=
  startswith s needle ||
  match s with
  | [] => false
  | _ :: s' => contains s' needle
  end.

(** [str(n)] for an [int]. *)
Definition digit (d : N) : N := 48 + d.

Fixpoint digits_pos (fuel : nat) (n : N) (acc : str) : str :=
  match fuel with
  | O => acc
  | S fuel' =>
      let acc' := digit (n mod 10) :: acc in
      if n / 10 =? 0 then acc' else digits_pos fuel' (n / 10) acc'
  end.

Definition of_N (n : N) : str := digits_pos (S (N.to_nat (N.log2 n))) n [].

Definition of_Z (z : Z) : str :=
  match z with
  | Z0 => of_N 0
  | Zpos p => of_N (Npos p)
  | Zneg p => 45 :: of_N (Npos p)
  end.

End Str.

Import Str.

(** ** [_extract_json] *)

Definition fence : str := lit "```".

(** [lines and lines[-1].strip() == fence]: the index is only read on a
    list that is not empty. *)
Definition closing_fence (lines : list str) : bool :=
  match last lines with
  | Some l => bool_decide (strip l = fence)
  | None => false
  end.

Definition _extract_json (text : str) : str :=
  let text := strip text in
  if startswith text fence then
    let lines := split nl text in
    let lines := drop 1 lines in
    let lines := if closing_fence lines then removelast lines else lines in
    strip (join [nl] lines)
  else text.

(** The extraction as the specification words it: trim, and on a fenced
    text drop the first line and a closing fence line and return the
    joined remainder. *)
Definition extract_as_specified (text : str) : str :=
  let trimmed := strip text in
  if startswith trimmed fence then
    let rest := drop 1 (split nl trimmed) in
    join [nl] (if closing_fence rest then removelast rest else rest)
  else trimmed.


(** ** Exceptions and results *)

(** An exception: its class, and the text [str(e)] gives for it.
    [APIError] stands for the exceptions of the OpenAI client (connection,
    timeout and status errors), [OtherException] for any other class. *)
Inductive exn :=
| JSONDecodeError (msg : str)
| ValidationError (msg : str)
| ValueError (msg : str)
| RuntimeError (msg : str)
| TypeError (msg : str)
| AttributeError (msg : str)
| IndexError (msg : str)
| APIError (msg : str)
| OtherException (msg : str).

(** [str(e)] *)
Definition exn_str (e : exn) : str :=
  match e with
  | JSONDecodeError m | ValidationError m | ValueError m | RuntimeError m
  | TypeError m | AttributeError m | IndexError m | APIError m | OtherException m => m
  end.

(** [str(x)] for a variable that holds [None] or an exception. *)
Definition opt_exn_str (o : option exn) : str :=
  match o with
  | None => lit "None"
  | Some e => exn_str e
  end.

Inductive result (A : Type) :=
| Ok (a : A)
| Raise (e : exn).
Arguments Ok {A} a.
Arguments Raise {A} e.

#[global] Instance result_ret : MRet result := fun A a => Ok a.
#[global] Instance result_bind : MBind result := fun A B f r =>
  match r with
  | Ok a => f a
  | Raise e => Raise e
  end.

Definition is_ok {A} (r : result A) : bool :=
  match r with
  | Ok _ => true
  | Raise _ => false
  end.

(** ** Parsed JSON and response models *)

(** What [json.loads] returns: [None], [bool], [int], [float], [str],
    [list] and [dict] (keys in the order of the text). *)
#[warnings="-register-all"]
Inductive json :=
| JNull
| JBool (b : bool)
| JInt (z : Z)
| JFloat (f : float)
| JStr (s : str)
| JList (xs : list json)
| JDict (kvs : list (str * json)).

(** [d.get(key)] *)
Fixpoint dict_get {A} (key : str) (kvs : list (str * A)) : option A :=
  match kvs with
  | [] => None
  | (k, v) :: kvs' => if bool_decide (k = key) then Some v else dict_get key kvs'
  end.

(** A pydantic model class: its JSON schema and its validator. *)
Class ResponseModel (T : Type) := {
  model_json_schema : json;
  model_validate : json -> result T;
}.

(** ** Messages and requests *)

Inductive role := system | user | assistant.

Record message := Message { msg_role : role; content : option str }.

(** ** [ModelConfig] *)

Record ModelConfig := {
  model : option str;
  temperature : float;
  max_tokens : option Z;
  top_p : float;
  frequency_penalty : float;
  presence_penalty : float;
  system_prompt : option str;
  extra_body : list (str * json);
}.

Definition __post_init__ (self : ModelConfig) : result unit :=
  if ((temperature self <? 0) || (2 <? temperature self))%float then
    Raise (ValueError (lit "Temperature must be between 0 and 2"))
  else if ((top_p self <? 0) || (1 <? top_p self))%float then
    Raise (ValueError (lit "top_p must be between 0 and 1"))
  else if ((frequency_penalty self <? -2) || (2 <? frequency_penalty self))%float then
    Raise (ValueError (lit "frequency_penalty must be between -2 and 2"))
  else if ((presence_penalty self <? -2) || (2 <? presence_penalty self))%float then
    Raise (ValueError (lit "presence_penalty must be between -2 and 2"))
  else
    match max_tokens self with
    | Some n =>
        if (n <? 1)%Z then Raise (ValueError (lit "max_tokens must be positive"))
        else Ok tt
    | None => Ok tt
    end.

(** The bounds of the specification: temperature in [0,2], top_p in
    [0,1], both penalties in [-2,2], max_tokens absent or at least 1. *)
Definition within_bounds (c : ModelConfig) : bool :=
  ((0 <=? temperature c) && (temperature c <=? 2)
   && (0 <=? top_p c) && (top_p c <=? 1)
   && (-2 <=? frequency_penalty c) && (frequency_penalty c <=? 2)
   && (-2 <=? presence_penalty c) && (presence_penalty c <=? 2))%float
  && match max_tokens c with
     | Some n => (1 <=? n)%Z
     | None => true
     end.

(** The keyword arguments [to_api_params] returns: [max_tokens] is a key
    only when the field is not [None]. *)
Record api_params := {
  p_temperature : float;
  p_top_p : float;
  p_frequency_penalty : float;
  p_presence_penalty : float;
  p_extra_body : list (str * json);
  p_max_tokens : option Z;
}.

Definition to_api_params (self : ModelConfig) : api_params :=
  {| p_temperature := temperature self;
     p_top_p := top_p self;
     p_frequency_penalty := frequency_penalty self;
     p_presence_penalty := presence_penalty self;
     p_extra_body := extra_body self;
     p_max_tokens := max_tokens self |}.

(** The defaults of the dataclass. *)
#[warnings="-inexact-float"]
Definition ModelConfig_default : ModelConfig :=
  {| model := None;
     temperature := 0.7%float;
     max_tokens := None;
     top_p := 1%float;
     frequency_penalty := 0%float;
     presence_penalty := 0%float;
     system_prompt := None;
     extra_body := [] |}.

Definition set_model (m : option str) (c : ModelConfig) : ModelConfig :=
  {| model := m;
     temperature := temperature c;
     max_tokens := max_tokens c;
     top_p := top_p c;
     frequency_penalty := frequency_penalty c;
     presence_penalty := presence_penalty c;
     system_prompt := system_prompt c;
     extra_body := extra_body c |}.


(** ** The model tables of [OpenRouterClient] *)

Definition MODELS : list str :=
  [ lit "deepseek/deepseek-chat-v3.1:free";
    lit "mistralai/mistral-small-3.2-24b-instruct:free";
    lit "moonshotai/kimi-dev-72b:free";
    lit "meta-llama/llama-3.3-8b-instruct:free";
    lit "nvidia/nemotron-nano-9b-v2:free";
    lit "openai/gpt-oss-20b:free";
    lit "qwen/qwen3-14b:free";
    lit "qwen/qwen3-30b-a3b:free";
    lit "qwen/qwen3-235b-a22b:free";
    lit "tencent/hunyuan-a13b-instruct:free";
    lit "x-ai/grok-4-fast:free";
    lit "z-ai/glm-4.5-air:free" ].

Definition MODEL_ALIASES : gmap str str :=
  list_to_map
    [ (lit "deepseek", lit "deepseek/deepseek-chat-v3.1:free");
      (lit "mistral", lit "mistralai/mistral-small-3.2-24b-instruct:free");
      (lit "kimi", lit "moonshotai/kimi-dev-72b:free");
      (lit "llama", lit "meta-llama/llama-3.3-8b-instruct:free");
      (lit "nemotron", lit "nvidia/nemotron-nano-9b-v2:free");
      (lit "gpt", lit "openai/gpt-oss-20b:free");
      (lit "qwen14", lit "qwen/qwen3-14b:free");
      (lit "qwen30", lit "qwen/qwen3-30b-a3b:free");
      (lit "qwen235", lit "qwen/qwen3-235b-a22b:free");
      (lit "hunyuan", lit "tencent/hunyuan-a13b-instruct:free");
      (lit "grok", lit "x-ai/grok-4-fast:free");
      (lit "glm", lit "z-ai/glm-4.5-air:free") ].

(** ** The world of a client *)

(** One call of [client.chat.completions.create]. *)
Record request := {
  req_model : option str;
  req_messages : list message;
  req_params : api_params;
}.

(** The request a call makes with the configuration [config]:
    [model=config.model, messages=messages, **config.to_api_params()]. *)
Definition request_of (config : ModelConfig) (messages : list message) : request :=
  {| req_model := model config;
     req_messages := messages;
     req_params := to_api_params config |}.

(** A completion: [choices[i].message.content] for each choice. *)
Definition completion := list (option str).

Abbreviation loc := nat.

(** A client object: [self.default_config] is a reference. *)
Record OpenRouterClient := { default_config : loc }.

(** The generated wrapper class of [generate_structured_list]. *)
Record ListWrapper (T : Type) := { items : list T }.
Arguments items {T} _.

(** Text of the messages and errors the client builds. *)
Definition api_failed (e : exn) : exn :=
  RuntimeError (lit "API request failed: " ++ exn_str e).

Definition schema_instruction (schema_dump : str) : str :=
  lit "You must respond with valid JSON that matches this exact schema:" ++ [nl]
  ++ schema_dump ++ [nl; nl]
  ++ lit "Respond ONLY with the JSON object, no additional text or markdown formatting.".

Definition error_msg (e : exn) : str :=
  lit "Your previous response was invalid. Error: " ++ exn_str e ++ [nl]
  ++ lit "Please provide a valid JSON response matching the schema exactly.".

(** The text the final [raise] builds for its error. *)
Definition exhaustion_text (max_retries : Z) (last_error : option exn) : str :=
  lit "Failed to generate valid structured output after " ++ of_Z max_retries
  ++ lit " attempts. Last error: " ++ opt_exn_str last_error.

(** [ValidationError(text)], with the class imported from pydantic: the
    class has no constructor that takes one string, so the call itself
    raises [TypeError] and the text is lost. *)
Definition ValidationError_from_text (text : str) : exn :=
  TypeError
    (lit "ValidationError.__new__() missing 1 required positional argument: 'line_errors'").

(** What [raise ValidationError(f"Failed to generate ...")] raises. *)
Definition exhausted (max_retries : Z) (last_error : option exn) : exn :=
  ValidationError_from_text (exhaustion_text max_retries last_error).

(** [except (json.JSONDecodeError, ValidationError)] *)
Definition retried (e : exn) : bool :=
  match e with
  | JSONDecodeError _ | ValidationError _ => true
  | _ => false
  end.

(** [range(n)] *)
Definition range (n : Z) : list Z := Z.of_nat <$> seq 0 (Z.to_nat n).

(** [completion.choices[0].message.content] *)
Definition first_content (c : completion) : result (option str) :=
  match c with
  | [] => Raise (IndexError (lit "list index out of range"))
  | content :: _ => Ok content
  end.

(** [self._extract_json(response_text)], where the content of a reply
    may be [None]. *)
Definition extract_json_of (response_text : option str) : result str :=
  match response_text with
  | None => Raise (AttributeError (lit "'NoneType' object has no attribute 'strip'"))
  | Some text => Ok (_extract_json text)
  end.

(** [random.choice(seq)] with the index the generator draws. *)
Definition random_choice (rnd : nat) (l : list str) : str :=
  default [] (l !! (rnd mod length l)%nat).

Section Client.

(** The collaborators that are library code: the OpenAI client with its
    own state [Svc], and [str.lower], [json.loads] and
    [json.dumps(_, indent=2)]. *)
Context {Svc : Type}.
Variable create : Svc -> request -> result completion * Svc.
Variable lower : str -> str.
Variable loads : str -> result json.
Variable dumps : json -> str.

Record world := World {
  environ_api_key : option str;
  heap : loc -> ModelConfig;
  next_loc : loc;
  service : Svc;
  calls : list (request * result completion);
  stderr : list str;
}.

Definition alloc (c : ModelConfig) (w : world) : loc * world :=
  (next_loc w,
   World (environ_api_key w) (<[next_loc w := c]> (heap w)) (S (next_loc w))
         (service w) (calls w) (stderr w)).

Definition store (l : loc) (c : ModelConfig) (w : world) : world :=
  World (environ_api_key w) (<[l := c]> (heap w)) (next_loc w)
        (service w) (calls w) (stderr w).

Definition print_stderr (line : str) (w : world) : world :=
  World (environ_api_key w) (heap w) (next_loc w)
        (service w) (calls w) (stderr w ++ [line]).

(** [self.client.chat.completions.create(model=.., messages=.., **api_params)]:
    the service runs and the call is recorded with what it gave. *)
Definition chat_completions_create (r : request) (w : world)
  : result completion * world :=
  let '(res, svc') := create (service w) r in
  (res,
   World (environ_api_key w) (heap w) (next_loc w)
         svc' (calls w ++ [(r, res)]) (stderr w)).

(** The world one such call leaves. *)
Definition after_call (w : world) (req : request) : world :=
  World (environ_api_key w) (heap w) (next_loc w)
        (create (service w) req).2
        (calls w ++ [(req, (create (service w) req).1)]) (stderr w).

(** [ModelConfig(...)]: a new object, when [__post_init__] accepts it. *)
Definition ModelConfig_new (fields : ModelConfig) (w : world)
  : result loc * world :=
  match __post_init__ fields with
  | Ok _ => let '(l, w') := alloc fields w in (Ok l, w')
  | Raise e => (Raise e, w)
  end.

Definition get_models : list str := MODELS.

Definition resolve_model (model_input : str) : str :=
  default model_input (MODEL_ALIASES !! lower model_input).

Definition __init__ (config : option loc) (rnd : nat) (w : world)
  : result OpenRouterClient * world :=
  match environ_api_key w with
  | None | Some [] =>
      (Raise (ValueError (lit "API key not found. Set OPENROUTER_API_KEY environment variable or pass it to the constructor.")), w)
  | Some (_ :: _) =>
      let '(r, w1) :=
        match config with
        | Some l => (Ok l, w)
        | None => ModelConfig_new ModelConfig_default w
        end in
      match r with
      | Raise e => (Raise e, w1)
      | Ok c =>
          let self := {| default_config := c |} in
          match model (heap w1 c) with
          | None =>
              (Ok self,
               store c (set_model (Some (random_choice rnd get_models)) (heap w1 c)) w1)
          | Some m =>
              let w2 := store c (set_model (Some (resolve_model m)) (heap w1 c)) w1 in
              if bool_decide (resolve_model m ∈ MODELS) then (Ok self, w2)
              else
                (Ok self,
                 print_stderr
                   (lit "Warning: '" ++ resolve_model m
                    ++ lit "' not in predefined list. Attempting anyway...") w2)
          end
      end
  end.

Definition generate_text (self : OpenRouterClient) (user_prompt : str) (w : world)
  : result (option str) * world :=
  let config := heap w (default_config self) in
  let messages :=
    match system_prompt config with
    | Some ((_ :: _) as p) => [Message system (Some p)]
    | _ => []
    end ++ [Message user (Some user_prompt)] in
  let '(r, w') := chat_completions_create (request_of config messages) w in
  match r ≫= first_content with
  | Ok content => (Ok content, w')
  | Raise e => (Raise (api_failed e), w')
  end.

Section Structured.

Context {T : Type} `{ResponseModel T}.

(** The local variables of [generate_structured] that the loop
    changes. *)
Record locals := Locals {
  messages : list message;
  last_error : option exn;
  response_text : option str;
}.

(** Extraction, [json.loads] and [response_model.model_validate] on
    the content of a reply. *)
Definition decode (response_text : option str) : result T :=
  json_text ← extract_json_of response_text;
  parsed_data ← loads json_text;
  model_validate parsed_data.

(** A service that answers every request with a text the decoder
    rejects with a parse or a validation error. *)
Definition always_invalid : Prop :=
  forall (s : Svc) (req : request),
  exists (c : completion) (raw : str) (e : exn),
    (create s req).1 = Ok c
    /\ first_content c = Ok (Some raw)
    /\ decode (Some raw) = Raise e
    /\ retried e = true.

(** The [try] block of one attempt: its outcome, with [response_text]
    as the block leaves it. *)
Definition attempt_once (self : OpenRouterClient) (st : locals) (w : world)
  : result T * option str * world :=
  let config := heap w (default_config self) in
  let '(r, w') := chat_completions_create (request_of config (messages st)) w in
  match r ≫= first_content with
  | Raise e => (Raise e, response_text st, w')
  | Ok text =>
      (decode text, text, w')
  end.

(** The first [except] clause. *)
Definition on_invalid (max_retries attempt : Z) (e : exn) (text : option str)
           (st : locals) : locals :=
  Locals
    (if (attempt <? max_retries - 1)%Z then
       messages st
       ++ [Message assistant text; Message user (Some (error_msg e))]
     else messages st)
    (Some e) text.

Fixpoint retry_loop (self : OpenRouterClient) (max_retries : Z)
         (attempts : list Z) (st : locals) (w : world) : result T * world :=
  match attempts with
  | [] => (Raise (exhausted max_retries (last_error st)), w)
  | attempt :: rest =>
      let '(r, text, w') := attempt_once self st w in
      match r with
      | Ok validated_response => (Ok validated_response, w')
      | Raise e =>
          if retried e then
            retry_loop self max_retries rest
                       (on_invalid max_retries attempt e text st) w'
          else (Raise (api_failed e), w')
      end
  end.

(** The conversation [generate_structured] starts from. *)
Definition initial_messages (config : ModelConfig) (user_prompt : str)
  : list message :=
  let base_system_prompt :=
    match system_prompt config with
    | Some ((_ :: _) as p) => p
    | _ => []
    end in
  let enhanced_system_prompt :=
    strip (base_system_prompt ++ [nl; nl]
           ++ schema_instruction (dumps model_json_schema)) in
  [Message system (Some enhanced_system_prompt);
   Message user (Some user_prompt)].

Definition generate_structured (self : OpenRouterClient) (user_prompt : str)
           (max_retries : Z) (w : world) : result T * world :=
  let config := heap w (default_config self) in
  retry_loop self max_retries (range max_retries)
             (Locals (initial_messages config user_prompt) None None) w.

End Structured.

Section StructuredList.

Context {T : Type} `{ResponseModel T}.

(** What pydantic derives for the wrapper class: the schema of an
    object with the one field [items], and the text of its error
    report for a rejected input. *)
Variable wrapper_schema : json -> json.
Variable wrapper_report : json -> str.

(** [items: List[item_model]]: every element validated as an item. *)
Fixpoint validate_items (xs : list json) : result (list T) :=
  match xs with
  | [] => Ok []
  | x :: xs' =>
      item ← model_validate x;
      rest ← validate_items xs';
      Ok (item :: rest)
  end.

(** Modelled from the spec: validation of the wrapper class
    [class ListWrapper(BaseModel): items: List[item_model]], which is
    pydantic's. The field [items] is required and holds a list, other
    keys are ignored, and an item that fails validation makes the
    wrapper fail with pydantic's report. *)
Definition ListWrapper_validate (parsed_data : json) : result (ListWrapper T) :=
  match parsed_data with
  | JDict kvs =>
      match dict_get (lit "items") kvs with
      | Some (JList xs) =>
          match validate_items xs with
          | Ok l => Ok {| items := l |}
          | Raise (ValidationError _) =>
              Raise (ValidationError (wrapper_report parsed_data))
          | Raise e => Raise e
          end
      | _ => Raise (ValidationError (wrapper_report parsed_data))
      end
  | _ => Raise (ValidationError (wrapper_report parsed_data))
  end.

#[local] Instance ListWrapper_model : ResponseModel (ListWrapper T) := {
  model_json_schema := wrapper_schema model_json_schema;
  model_validate := ListWrapper_validate;
}.

Definition generate_structured_list (self : OpenRouterClient)
           (user_prompt : str) (max_retries : Z) (w : world)
  : result (list T) * world :=
  let '(r, w') :=
    generate_structured (T := ListWrapper T) self user_prompt max_retries w in
  match r with
  | Ok result => (Ok (items result), w')
  | Raise e => (Raise e, w')
  end.

End StructuredList.

End Client.

(** ** A reference JSON codec and test doubles

    [MiniJson] reads and prints the JSON texts without escape sequences
    and without fractional numbers. It stands for [json.loads] and
    [json.dumps(_, indent=2)] where a property is run on a concrete
    reply; the properties themselves hold for every codec. *)

Module MiniJson.

Definition is_ws (c : N) : bool :=
  (c =? 32) || (c =? 9) || (c =? 10) || (c =? 13).

Fixpoint skip_ws (s : str) : str :=
  match s with
  | c :: s' => if is_ws c then skip_ws s' else s
  | [] => []
  end.

(** The characters up to the closing quote, and what follows it. *)
Fixpoint string_body (s : str) : option (str * str) :=
  match s with
  | [] => None
  | c :: s' =>
      if c =? dquote then Some ([], s')
      else if (c =? 92) || (c <? 32) then None
      else '(body, rest) ← string_body s'; Some (c :: body, rest)
  end.

Definition is_digit (c : N) : bool := (48 <=? c) && (c <=? 57).

Fixpoint digits (s : str) (acc : N) : N * str :=
  match s with
  | c :: s' => if is_digit c then digits s' (10 * acc + (c - 48)) else (acc, s)
  | [] => (acc, [])
  end.

Definition number (s : str) : option (Z * str) :=
  match s with
  | 45 :: ((c :: _) as s') =>
      if is_digit c then let '(n, rest) := digits s' 0 in Some (- Z.of_N n, rest)%Z
      else None
  | c :: _ =>
      if is_digit c then let '(n, rest) := digits s 0 in Some (Z.of_N n, rest)
      else None
  | [] => None
  end.

(** [d[k] = v] *)
Fixpoint dict_set (k : str) (v : json) (kvs : list (str * json))
  : list (str * json) :=
  match kvs with
  | [] => [(k, v)]
  | (k', v') :: kvs' =>
      if bool_decide (k' = k) then (k', v) :: kvs'
      else (k', v') :: dict_set k v kvs'
  end.

Fixpoint value (fuel : nat) (s : str) : option (json * str) :=
  match fuel with
  | O => None
  | S fuel' =>
      match skip_ws s with
      | [] => None
      | c :: rest =>
          if c =? 123 then
            match skip_ws rest with
            | 125 :: rest' => Some (JDict [], rest')
            | _ => '(kvs, rest') ← members fuel' rest []; Some (JDict kvs, rest')
            end
          else if c =? 91 then
            match skip_ws rest with
            | 93 :: rest' => Some (JList [], rest')
            | _ => '(xs, rest') ← elements fuel' rest; Some (JList xs, rest')
            end
          else if c =? dquote then
            '(body, rest') ← string_body rest; Some (JStr body, rest')
          else if startswith (c :: rest) (lit "true") then
            Some (JBool true, drop 4 (c :: rest))
          else if startswith (c :: rest) (lit "false") then
            Some (JBool false, drop 5 (c :: rest))
          else if startswith (c :: rest) (lit "null") then
            Some (JNull, drop 4 (c :: rest))
          else
            '(z, rest') ← number (c :: rest); Some (JInt z, rest')
      end
  end
with elements (fuel : nat) (s : str) : option (list json * str) :=
  match fuel with
  | O => None
  | S fuel' =>
      '(x, rest) ← value fuel' s;
      match skip_ws rest with
      | 44 :: rest' => '(xs, rest'') ← elements fuel' rest'; Some (x :: xs, rest'')
      | 93 :: rest' => Some ([x], rest')
      | _ => None
      end
  end
with members (fuel : nat) (s : str) (acc : list (str * json))
  : option (list (str * json) * str) :=
  match fuel with
  | O => None
  | S fuel' =>
      match skip_ws s with
      | 34 :: rest =>
          '(k, rest1) ← string_body rest;
          match skip_ws rest1 with
          | 58 :: rest2 =>
              '(v, rest3) ← value fuel' rest2;
              match skip_ws rest3 with
              | 44 :: rest4 => members fuel' rest4 (dict_set k v acc)
              | 125 :: rest4 => Some (dict_set k v acc, rest4)
              | _ => None
              end
          | _ => None
          end
      | _ => None
      end
  end.

Definition loads (s : str) : result json :=
  match value (2 * length s + 2) s with
  | Some (v, rest) =>
      match skip_ws rest with
      | [] => Ok v
      | _ => Raise (JSONDecodeError (lit "Extra data"))
      end
  | None => Raise (JSONDecodeError (lit "Expecting value"))
  end.

(** [json.dumps(j, indent=2)]; a float, which the fragment leaves out,
    is printed as [NaN]. *)
Fixpoint dumps_at (level : nat) (j : json) : str :=
  let pad := replicate (level + 2) space in
  match j with
  | JNull => lit "null"
  | JBool true => lit "true"
  | JBool false => lit "false"
  | JInt z => of_Z z
  | JFloat _ => lit "NaN"
  | JStr s => [dquote] ++ s ++ [dquote]
  | JList [] => lit "[]"
  | JList xs =>
      lit "[" ++ [nl]
      ++ join (lit "," ++ [nl]) (map (fun x => pad ++ dumps_at (level + 2) x) xs)
      ++ [nl] ++ replicate level space ++ lit "]"
  | JDict [] => lit "{}"
  | JDict kvs =>
      lit "{" ++ [nl]
      ++ join (lit "," ++ [nl])
           (map (fun '(k, v) =>
                   pad ++ [dquote] ++ k ++ [dquote] ++ lit ": "
                   ++ dumps_at (level + 2) v) kvs)
      ++ [nl] ++ replicate level space ++ lit "}"
  end.

Definition dumps (j : json) : str := dumps_at 0 j.

End MiniJson.

(** [str.lower] on ASCII text. *)
Definition ascii_lower (s : str) : str :=
  map (fun c => if (65 <=? c) && (c <=? 90) then c + 32 else c) s.

(** The item model of the usage example:
    [class Task(BaseModel): name: str; priority: str]. *)
Record Task := { name : str; priority : str }.

Definition Task_schema : json :=
  JDict
    [ (lit "properties",
       JDict [ (lit "name", JDict [(lit "title", JStr (lit "Name")); (lit "type", JStr (lit "string"))]);
               (lit "priority", JDict [(lit "title", JStr (lit "Priority")); (lit "type", JStr (lit "string"))]) ]);
      (lit "required", JList [JStr (lit "name"); JStr (lit "priority")]);
      (lit "title", JStr (lit "Task"));
      (lit "type", JStr (lit "object")) ].

(** Modelled from the spec: validation of [Task], which is pydantic's.
    Both fields are required strings and other keys are ignored. *)
Definition Task_validate (parsed_data : json) : result Task :=
  match parsed_data with
  | JDict kvs =>
      match dict_get (lit "name") kvs, dict_get (lit "priority") kvs with
      | Some (JStr n), Some (JStr p) => Ok {| name := n; priority := p |}
      | _, _ => Raise (ValidationError (lit "validation error for Task"))
      end
  | _ => Raise (ValidationError (lit "validation error for Task"))
  end.

#[global] Instance Task_model : ResponseModel Task := {
  model_json_schema := Task_schema;
  model_validate := Task_validate;
}.

(** The schema and the report pydantic derives for a wrapper class, as
    far as the examples need them. *)
Definition list_schema (item_schema : json) : json :=
  JDict
    [ (lit "properties",
       JDict [ (lit "items", JDict [(lit "items", item_schema); (lit "type", JStr (lit "array"))]) ]);
      (lit "required", JList [JStr (lit "items")]);
      (lit "title", JStr (lit "ListWrapper"));
      (lit "type", JStr (lit "object")) ].

Definition list_report (_ : json) : str := lit "validation error for ListWrapper".

(** A service that gives the same reply to every request, and one that
    plays a script of outcomes and then refuses the connection. *)
Definition always (reply : str) (s : unit) (_ : request) : result completion * unit :=
  (Ok [Some reply], s).

Definition scripted (s : list (result completion)) (_ : request)
  : result completion * list (result completion) :=
  match s with
  | [] => (Raise (APIError (lit "Connection error.")), [])
  | r :: s' => (r, s')
  end.

(** A process with the API key set and one configuration object at
    location 0, as [ModelConfig(model="deepseek", temperature=0.3)]
    leaves it. *)
#[warnings="-inexact-float"]
Definition example_config : ModelConfig :=
  {| model := Some (lit "deepseek");
     temperature := 0.3%float;
     max_tokens := None;
     top_p := 1%float;
     frequency_penalty := 0%float;
     presence_penalty := 0%float;
     system_prompt := None;
     extra_body := [] |}.

Definition example_world {Svc : Type} (s : Svc) : world :=
  World (Some (lit "sk-or-test")) (<[0%nat := example_config]> (fun _ => ModelConfig_default))
        1%nat s [] [].

Definition example_client : OpenRouterClient := {| default_config := 0%nat |}.

(** Replies used in the examples. *)
Definition reply_items : str :=
  lit "{" ++ [dquote] ++ lit "items" ++ [dquote] ++ lit ":[{"
  ++ [dquote] ++ lit "name" ++ [dquote] ++ lit ":" ++ [dquote] ++ lit "A" ++ [dquote] ++ lit ","
  ++ [dquote] ++ lit "priority" ++ [dquote] ++ lit ":" ++ [dquote] ++ lit "high" ++ [dquote]
  ++ lit "}]}".

Definition parsed_items : json :=
  JDict [ (lit "items",
           JList [ JDict [ (lit "name", JStr (lit "A"));
                           (lit "priority", JStr (lit "high")) ] ]) ].

Definition reply_task : str :=
  lit "{" ++ [dquote] ++ lit "name" ++ [dquote] ++ lit ":" ++ [dquote] ++ lit "A" ++ [dquote] ++ lit ","
  ++ [dquote] ++ lit "priority" ++ [dquote] ++ lit ":" ++ [dquote] ++ lit "high" ++ [dquote]
  ++ lit "}".

(** A fenced reply whose object lacks the field [priority]. *)
Definition reply_fenced_partial : str :=
  lit "```json" ++ [nl] ++ lit "{" ++ [dquote] ++ lit "name" ++ [dquote] ++ lit ":"
  ++ [dquote] ++ lit "A" ++ [dquote] ++ lit "}" ++ [nl] ++ lit "```".

Definition reply_prose : str := lit "Sorry, I cannot help with that.".

(** The text of the specification's extraction example and its payload. *)
Definition fenced_example : str :=
  [space] ++ lit "```json" ++ [nl] ++ lit "{" ++ [dquote] ++ lit "a" ++ [dquote]
  ++ lit ":1}" ++ [nl] ++ lit "```" ++ [space].

Definition fenced_example_payload : str :=
  lit "{" ++ [dquote] ++ lit "a" ++ [dquote] ++ lit ":1}".

(** A fenced text whose payload line is indented. *)
Definition fenced_indented : str :=
  lit "```" ++ [nl; space] ++ lit "{}" ++ [nl] ++ lit "```".


(** The task of the specification's example. *)
Definition task_A : Task := {| name := lit "A"; priority := lit "high" |}.

(** A script with a rejected reply and then an accepted one, and a
    script with a rejected reply and then an outage. *)
Definition script_retry : list (result completion) :=
  [Ok [Some reply_fenced_partial]; Ok [Some reply_task]].

Definition script_outage : list (result completion) :=
  [Ok [Some reply_prose]; Raise (APIError (lit "Connection error."))].

(** The run of [generate_structured] with a budget of 5 on the outage
    script. *)
Definition outage_run : result Task * world :=
  generate_structured (T := Task) scripted MiniJson.loads MiniJson.dumps
    example_client (lit "Create a task") 5 (example_world script_outage).

(** The default configuration with a temperature that is not a number,
    as [ModelConfig(temperature=float("nan"))] builds it. *)
Definition nan_config : ModelConfig :=
  {| model := None;
     temperature := nan;
     max_tokens := None;
     top_p := 1%float;
     frequency_penalty := 0%float;
     presence_penalty := 0%float;
     system_prompt := None;
     extra_body := [] |}.

(** Two configurations that agree on every field but [model]. *)
Definition same_but_model (c c' : ModelConfig) : Prop :=
  temperature c = temperature c'
  /\ max_tokens c = max_tokens c'
  /\ top_p c = top_p c'
  /\ frequency_penalty c = frequency_penalty c'
  /\ presence_penalty c = presence_penalty c'
  /\ system_prompt c = system_prompt c'
  /\ extra_body c = extra_body c'.

(** ** The batch of [cli_medtopic.py] *)

(** One entry of [output["answers"]]: the model as it was named on the
    command line, the time, and either the dumped response or the text of
    the exception. *)
Inductive answer_body (D : Type) :=
| Data (data : D)
| Error (error : str).
Arguments Data {D} data.
Arguments Error {D} error.

Record answer (D : Type) := Answer {
  ans_model : str;
  ans_timestamp : str;
  ans_body : answer_body D;
}.
Arguments Answer {D} _ _ _.
Arguments ans_model {D} _.
Arguments ans_timestamp {D} _.
Arguments ans_body {D} _.

(** [ModelConfig(model=model, temperature=0.3)] *)
#[warnings="-inexact-float"]
Definition batch_config (model : str) : ModelConfig :=
  {| model := Some model;
     temperature := 0.3%float;
     max_tokens := None;
     top_p := 1%float;
     frequency_penalty := 0%float;
     presence_penalty := 0%float;
     system_prompt := None;
     extra_body := [] |}.

Section Batch.

Context {Svc : Type}.
Variable create : Svc -> request -> result completion * Svc.
Variable lower : str -> str.
Variable loads : str -> result json.
Variable dumps : json -> str.
Context {T : Type} `{ResponseModel T} {D : Type}.

(** [response.model_dump()], and [datetime.now().isoformat()] as read
    for the entry appended to a list of the given length. *)
Variable model_dump : T -> D.
Variable now : nat -> str.

(** The list under [output["answers"]], the contents the output file
    was given by each [json.dump], and the world of the clients. *)
Record batch_state := BatchState {
  answers : list (answer D);
  written : list (list (answer D));
  batch_world : world (Svc := Svc);
}.

(** The [try] block of one iteration: a configuration, a client on it
    and one structured generation with the default budget. *)
Definition query_attempt (prompt model : str) (w : world) : result T * world :=
  let '(rc, w1) := ModelConfig_new (batch_config model) w in
  match rc with
  | Raise e => (Raise e, w1)
  | Ok config =>
      let '(rcl, w2) := __init__ lower (Some config) 0 w1 in
      match rcl with
      | Raise e => (Raise e, w2)
      | Ok client => generate_structured create loads dumps client prompt 3 w2
      end
  end.

Definition record_answer (model : str) (body : answer_body D)
           (l : list (answer D)) : list (answer D) :=
  l ++ [Answer model (now (length l)) body].

(** The body of [for model in models]. *)
Definition query_model (prompt : str) (s : batch_state) (model : str) : batch_state :=
  let w0 := print_stderr (lit "  Querying " ++ model ++ lit "...") (batch_world s) in
  let '(r, w1) := query_attempt prompt model w0 in
  let '(answers', w2) :=
    match r with
    | Ok response =>
        (record_answer model (Data (model_dump response)) (answers s), w1)
    | Raise e =>
        (record_answer model (Error (exn_str e)) (answers s),
         print_stderr (lit "  Error with " ++ model ++ lit ": " ++ exn_str e) w1)
    end in
  BatchState answers' (written s ++ [answers']) w2.

Definition query_models (prompt : str) (models : list str) (s : batch_state)
  : batch_state :=
  fold_left (query_model prompt) models s.

End Batch.

(** A process without the API key. *)
Definition keyless_world {Svc : Type} (s : Svc) : world :=
  World None (fun _ => ModelConfig_default) 0%nat s [] [].

(** The example process after its configuration was given a model name
    that is neither an alias nor in the list, and after a client was
    built on the example configuration. *)
Definition unlisted_world {Svc : Type} (s : Svc) : world :=
  store 0%nat (set_model (Some (lit "acme/model-x")) example_config) (example_world s).

Definition resolved_world {Svc : Type} (s : Svc) : world :=
  store 0%nat
        (set_model (Some (lit "deepseek/deepseek-chat-v3.1:free")) example_config)
        (example_world s).

(** A service whose first call fails while it decodes the response of
    the provider, and which then answers with a valid reply. *)
Definition script_garbled : list (result completion) :=
  [Raise (JSONDecodeError (lit "Expecting value: line 1 column 1 (char 0)"));
   Ok [Some reply_task]].

(** A batch that starts from no answers in a process without the key,
    with the identity for [model_dump] and a clock that stands still. *)
Definition keyless_batch : batch_state (Svc := list (result completion)) (D := Task) :=
  BatchState [] [] (keyless_world [Ok [Some reply_task]]).

Definition keyless_run : batch_state (Svc := list (result completion)) (D := Task) :=
  query_models (T := Task) scripted ascii_lower MiniJson.loads MiniJson.dumps
               (fun t : Task => t) (fun _ : nat => lit "2025-01-01T00:00:00")
               (lit "Create a task") [lit "mistral"; lit "grok"] keyless_batch.

(** * Properties *)

(** ** Trimming *)

Section Trimming.

Lemma lstrip_fixed (c : N) (s : str) :
  isspace c = false -> lstrip (c :: s) = c :: s.
Proof. intros Hc. simpl. now rewrite Hc. Qed.

Lemma lstrip_idemp (s : str) : lstrip (lstrip s) = lstrip s.
Proof.
  induction s as [|c s IH]; [reflexivity|].
  simpl. destruct (isspace c) eqn:Hc; [exact IH|].
  now apply lstrip_fixed.
Qed.

Lemma rstrip_cons (c : N) (s : str) :
  rstrip (c :: s) =
    match rstrip s with
    | [] => if isspace c then [] else [c]
    | r => c :: r
    end.
Proof. reflexivity. Qed.

Lemma rstrip_idemp (s : str) : rstrip (rstrip s) = rstrip s.
Proof.
  induction s as [|c s IH]; [reflexivity|].
  rewrite rstrip_cons. destruct (rstrip s) as [|x r] eqn:Hr.
  - destruct (isspace c) eqn:Hc; [reflexivity|].
    simpl. now rewrite Hc.
  - rewrite rstrip_cons, IH. reflexivity.
Qed.

(** Trimming the two ends does not depend on the order. *)
Lemma rstrip_lstrip (s : str) : rstrip (lstrip s) = lstrip (rstrip s).
Proof.
  induction s as [|c s IH]; [reflexivity|].
  destruct (isspace c) eqn:Hc.
  - change (lstrip (c :: s)) with (if isspace c then lstrip s else c :: s).
    rewrite Hc, IH, rstrip_cons.
    destruct (rstrip s) as [|x r]; simpl; now rewrite Hc.
  - rewrite (lstrip_fixed c s Hc), rstrip_cons.
    destruct (rstrip s) as [|x r]; rewrite ?Hc; now rewrite lstrip_fixed.
Qed.

Lemma strip_idemp (s : str) : strip (strip s) = strip s.
Proof.
  unfold strip.
  now rewrite rstrip_lstrip, rstrip_idemp, lstrip_idemp.
Qed.

End Trimming.

(** ** Extraction *)

(** C5, as the code has it: the extraction is the specified one followed
    by a second trim. On every text it returns the trimmed text when
    that does not start with a fence, and otherwise the remainder (first
    line dropped, closing fence line dropped) joined and trimmed again;
    the specification's fenced example gives its payload. *)
Theorem extract_json_is_specified_then_trimmed :
  (forall text : str, _extract_json text = strip (extract_as_specified text))
  /\ (forall text : str, strip (_extract_json text) = _extract_json text)
  /\ _extract_json fenced_example = fenced_example_payload.
Proof.
  split; [|split].
  - intros text. unfold _extract_json, extract_as_specified.
    destruct (startswith (strip text) fence); [reflexivity|].
    symmetry. apply strip_idemp.
  - intros text. unfold _extract_json.
    destruct (startswith (strip text) fence); apply strip_idemp.
  - vm_compute. reflexivity.
Qed.

(** C5 as stated fails: on a fenced text whose payload line is indented
    the code returns the payload without the indentation, not the joined
    remainder. *)
Lemma extract_json_not_joined_remainder :
  extract_as_specified fenced_indented = [space] ++ lit "{}"
  /\ _extract_json fenced_indented = lit "{}"
  /\ _extract_json fenced_indented <> extract_as_specified fenced_indented.
Proof.
  split; [|split]; [vm_compute; reflexivity ..|].
  vm_compute. discriminate.
Qed.

(** C7: on a text that is clean, that is, whose trimmed form does not
    start with a fence, extracting twice is extracting once. *)
Theorem extract_json_idempotent_on_clean (s : str) :
  startswith (strip s) fence = false ->
  _extract_json (_extract_json s) = _extract_json s.
Proof.
  intros Hclean. unfold _extract_json.
  rewrite Hclean, strip_idemp, Hclean. reflexivity.
Qed.

Lemma extract_json_idempotent_on_clean_witness :
  startswith (strip ([space] ++ fenced_example_payload ++ [nl])) fence = false
  /\ _extract_json (_extract_json ([space] ++ fenced_example_payload ++ [nl]))
     = _extract_json ([space] ++ fenced_example_payload ++ [nl]).
Proof.
  split; [reflexivity|].
  apply (extract_json_idempotent_on_clean ([space] ++ fenced_example_payload ++ [nl])).
  reflexivity.
Defined.

(** ** The retry loop *)

Section RetryLoop.

Context {Svc : Type}.
Variable create : Svc -> request -> result completion * Svc.
Variable loads : str -> result json.
Variable dumps : json -> str.
Context {T : Type} `{ResponseModel T}.

Abbreviation world := (@world Svc).
Abbreviation decode := (decode (T := T) loads).
Abbreviation attempt_once := (attempt_once (T := T) create loads).
Abbreviation retry_loop := (retry_loop (T := T) create loads).
Abbreviation generate_structured := (generate_structured (T := T) create loads dumps).

Abbreviation after_call := (after_call create).
Abbreviation always_invalid := (always_invalid (T := T) create loads).

Lemma attempt_once_eq (self : OpenRouterClient) (st : locals) (w : world) :
  attempt_once self st w =
    let req := request_of (heap w (default_config self)) (messages st) in
    match (create (service w) req).1 ≫= first_content with
    | Raise e => (Raise e, response_text st, after_call w req)
    | Ok text => (decode text, text, after_call w req)
    end.
Proof.
  unfold attempt_once, chat_completions_create, after_call.
  destruct (create _ _) as [res svc']. simpl.
  destruct (res ≫= first_content); reflexivity.
Qed.

Lemma range_nonpositive (n : Z) : (n <= 0)%Z -> range n = [].
Proof.
  intros Hn. unfold range.
  replace (Z.to_nat n) with 0%nat by lia. reflexivity.
Qed.

Lemma range_length (n : Z) : length (range n) = Z.to_nat n.
Proof. unfold range. now rewrite length_fmap, length_seq. Qed.

(** C10 fails on the code: with a budget of zero or less the loop body
    never runs and the service is not invoked, as claimed, and nothing
    else changes; but the call does not raise the exhaustion error.  The
    text of that error is built with [last_error = None], and the
    construction of the [ValidationError] from it raises [TypeError],
    which is what the caller receives. *)
Theorem generate_structured_no_budget
        (self : OpenRouterClient) (user_prompt : str) (max_retries : Z) (w : world) :
  (max_retries <= 0)%Z ->
  generate_structured self user_prompt max_retries w
  = (Raise (TypeError
              (lit "ValidationError.__new__() missing 1 required positional argument: 'line_errors'")),
     w)
  /\ calls (generate_structured self user_prompt max_retries w).2 = calls w
  /\ exhaustion_text max_retries None
     = lit "Failed to generate valid structured output after " ++ of_Z max_retries
       ++ lit " attempts. Last error: None"
  /\ forall msg : str,
       (generate_structured self user_prompt max_retries w).1
       <> Raise (ValidationError msg).
Proof.
  intros Hn.
  assert (generate_structured self user_prompt max_retries w
          = (Raise (exhausted max_retries None), w)) as Hrun.
  { unfold generate_structured.
    rewrite (range_nonpositive _ Hn). reflexivity. }
  rewrite Hrun. repeat split; try reflexivity.
  intros msg. discriminate.
Qed.

(** When every reply is rejected the loop uses the whole list of
    attempts: one call each, then the final [raise], reached with the
    error of the last reply as [last_error]. *)
Lemma retry_loop_all_invalid (self : OpenRouterClient) (max_retries : Z) :
  always_invalid ->
  forall (attempts : list Z) (st : locals) (w : world),
  exists (w' : world) (cs : list (request * result completion)) (le : option exn),
    retry_loop self max_retries attempts st w = (Raise (exhausted max_retries le), w')
    /\ calls w' = calls w ++ cs
    /\ length cs = length attempts
    /\ heap w' = heap w
    /\ match last cs with
       | None => le = last_error st
       | Some (_, res) =>
           exists c raw e,
             res = Ok c /\ first_content c = Ok (Some raw)
             /\ decode (Some raw) = Raise e /\ retried e = true /\ le = Some e
       end.
Proof.
  intros Hinv attempts.
  induction attempts as [|attempt rest IH]; intros st w.
  - exists w, [], (last_error st). simpl. rewrite app_nil_r. auto.
  - cbn [retry_loop]. rewrite attempt_once_eq. cbv zeta.
    set (req := request_of _ _).
    destruct (Hinv (service w) req) as (c & raw & e & Hc & Hfc & Hd & Hr).
    rewrite Hc. cbn [mbind result_bind]. rewrite Hfc, Hd, Hr.
    destruct (IH (on_invalid max_retries attempt e (Some raw) st) (after_call w req))
      as (w' & cs & le & Hrun & Hcalls & Hlen & Hheap & Hlast).
    exists w', ((req, Ok c) :: cs), le.
    split; [exact Hrun|].
    split; [rewrite Hcalls; cbn [calls after_call]; rewrite Hc, <- app_assoc; reflexivity|].
    split; [simpl; now rewrite Hlen|].
    split; [rewrite Hheap; reflexivity|].
    destruct cs as [|x cs'].
    + rewrite last_singleton. simpl in Hlast.
      exists c, raw, e. auto.
    + rewrite last_cons_cons.
      destruct (last (x :: cs')) as [[req' res']|] eqn:Hl; [exact Hlast|].
      apply last_None in Hl. discriminate Hl.
Qed.

(** C1: with a budget of 3 and a service whose every reply is rejected,
    the service is invoked exactly three times and the call then fails
    with the exhaustion error. *)
Theorem generate_structured_budget_three
        (self : OpenRouterClient) (user_prompt : str) (w : world) :
  always_invalid ->
  exists (w' : world) (cs : list (request * result completion)) (e : exn),
    generate_structured self user_prompt 3 w = (Raise (exhausted 3 (Some e)), w')
    /\ calls w' = calls w ++ cs
    /\ length cs = 3%nat
    /\ retried e = true.
Proof.
  intros Hinv.
  destruct (retry_loop_all_invalid self 3 Hinv (range 3)
              (Locals (initial_messages dumps (heap w (default_config self)) user_prompt)
                      None None) w)
    as (w' & cs & le & Hrun & Hcalls & Hlen & _ & Hlast).
  destruct (last cs) as [[req res]|] eqn:Hl.
  - destruct Hlast as (c & raw & e & _ & _ & _ & Hr & ->).
    exists w', cs, e. auto.
  - apply last_None in Hl. subst cs. discriminate Hlen.
Qed.

(** C3 fails on the code: when every attempt is rejected and the
    budget is at least 1, the last reply was received and rejected with
    an error [e], but the caller gets neither.  The terminal
    [ValidationError] is never built: its construction from the text
    raises [TypeError], whose message holds neither the raw reply nor the
    text of [e], and is the same for every run. *)
Theorem exhaustion_raises_type_error
        (self : OpenRouterClient) (user_prompt : str) (max_retries : Z) (w : world) :
  (1 <= max_retries)%Z ->
  always_invalid ->
  exists (w' : world) (req : request) (c : completion) (raw : str) (e : exn),
    generate_structured self user_prompt max_retries w
    = (Raise (TypeError
                (lit "ValidationError.__new__() missing 1 required positional argument: 'line_errors'")),
       w')
    /\ last (calls w') = Some (req, Ok c)
    /\ first_content c = Ok (Some raw)
    /\ decode (Some raw) = Raise e
    /\ retried e = true.
Proof.
  intros Hn Hinv.
  destruct (retry_loop_all_invalid self max_retries Hinv (range max_retries)
              (Locals (initial_messages dumps (heap w (default_config self)) user_prompt)
                      None None) w)
    as (w' & cs & le & Hrun & Hcalls & Hlen & _ & Hlast).
  rewrite range_length in Hlen.
  destruct (last cs) as [[req res]|] eqn:Hl.
  - destruct Hlast as (c & raw & e & -> & Hfc & Hd & Hr & ->).
    exists w', req, c, raw, e.
    split; [exact Hrun|].
    split; [rewrite Hcalls, last_app, Hl; reflexivity|].
    auto.
  - apply last_None in Hl. subst cs. simpl in Hlen. lia.
Qed.

Lemma range_two (n : Z) :
  (2 <= n)%Z -> exists rest : list Z, range n = 0%Z :: 1%Z :: rest.
Proof.
  intros Hn. unfold range.
  destruct (Z.to_nat n) as [|[|k]] eqn:Hk; [lia | lia |].
  eexists. reflexivity.
Qed.

Lemma error_msg_carries_detail (e : exn) :
  exists pre post : str, error_msg e = pre ++ exn_str e ++ post.
Proof. unfold error_msg. eexists _, _. reflexivity. Qed.

(** C2: when the first reply is rejected and the second is accepted
    (and the budget allows a second attempt), the call returns the
    validated value after exactly two invocations; the second request
    carries the first conversation followed by an assistant message with
    the raw first reply and a user message with the error text. *)
Theorem generate_structured_second_attempt
        (self : OpenRouterClient) (user_prompt : str) (max_retries : Z) (w : world)
        (c1 c2 : completion) (raw1 raw2 : str) (e1 : exn) (v : T) :
  let config := heap w (default_config self) in
  let m0 := initial_messages dumps config user_prompt in
  let m1 := m0 ++ [Message assistant (Some raw1); Message user (Some (error_msg e1))] in
  let w1 := after_call w (request_of config m0) in
  (2 <= max_retries)%Z ->
  (create (service w) (request_of config m0)).1 = Ok c1 ->
  first_content c1 = Ok (Some raw1) ->
  decode (Some raw1) = Raise e1 ->
  retried e1 = true ->
  (create (service w1) (request_of config m1)).1 = Ok c2 ->
  first_content c2 = Ok (Some raw2) ->
  decode (Some raw2) = Ok v ->
  exists w' : world,
    generate_structured self user_prompt max_retries w = (Ok v, w')
    /\ calls w' = calls w ++ [(request_of config m0, Ok c1); (request_of config m1, Ok c2)]
    /\ (exists pre post : str, error_msg e1 = pre ++ exn_str e1 ++ post).
Proof.
  intros config m0 m1 w1 Hn Hc1 Hf1 Hd1 Hr1 Hc2 Hf2 Hd2.
  destruct (range_two max_retries Hn) as [rest Hrange].
  exists (after_call w1 (request_of config m1)).
  split; [|split; [|apply error_msg_carries_detail]].
  - unfold generate_structured. rewrite Hrange.
    cbn [retry_loop]. rewrite attempt_once_eq. cbv zeta.
    cbn [messages]. fold config m0. rewrite Hc1.
    cbn [mbind result_bind]. rewrite Hf1, Hd1, Hr1.
    rewrite attempt_once_eq. cbv zeta.
    unfold on_invalid. cbn [messages].
    replace (0 <? max_retries - 1)%Z with true by (symmetry; apply Z.ltb_lt; lia).
    fold m1. fold w1.
    change (heap w1 (default_config self)) with config.
    rewrite Hc2. cbn [mbind result_bind]. rewrite Hf2, Hd2. reflexivity.
  - unfold after_call at 1. cbn [calls]. rewrite Hc2.
    unfold w1, after_call. cbn [calls]. rewrite Hc1.
    rewrite <- app_assoc. reflexivity.
Qed.

(** A call that raised an exception of a class the loop does not retry
    is the last call of the run, and the run raises the wrapped error. *)
Lemma retry_loop_abort_is_last (self : OpenRouterClient) (max_retries : Z) :
  forall (attempts : list Z) (st : locals) (w w' : world) (r : result T),
    retry_loop self max_retries attempts st w = (r, w') ->
    exists cs : list (request * result completion),
      calls w' = calls w ++ cs
      /\ forall (i : nat) (req : request) (e : exn),
           cs !! i = Some (req, Raise e) ->
           retried e = false ->
           r = Raise (api_failed e) /\ length cs = S i.
Proof.
  induction attempts as [|attempt rest IH]; intros st w w' r Hrun.
  - cbn in Hrun. injection Hrun as <- <-.
    exists []. rewrite app_nil_r. split; [reflexivity|].
    intros i req e Hi. rewrite lookup_nil in Hi. discriminate.
  - cbn [retry_loop] in Hrun. rewrite attempt_once_eq in Hrun.
    cbv zeta in Hrun.
    set (req0 := request_of _ _) in Hrun.
    assert (forall w2 r2,
              (r2, w2) = (r, w') ->
              w2 = after_call w req0 ->
              (forall e, (create (service w) req0).1 = Raise e ->
                         retried e = false -> r2 = Raise (api_failed e)) ->
              exists cs, calls w' = calls w ++ cs
                /\ forall i req e, cs !! i = Some (req, Raise e) ->
                     retried e = false -> r = Raise (api_failed e) /\ length cs = S i)
      as Hstop.
    { intros w2 r2 Heq -> Hfail. injection Heq as <- <-.
      exists [(req0, (create (service w) req0).1)].
      split; [reflexivity|].
      intros [|i] req e Hi Hr; [|rewrite lookup_cons, lookup_nil in Hi; discriminate].
      cbn in Hi. injection Hi as <- He. auto. }
    assert (forall st2,
              retry_loop self max_retries rest st2 (after_call w req0) = (r, w') ->
              (forall e, (create (service w) req0).1 = Raise e -> retried e = true) ->
              exists cs, calls w' = calls w ++ cs
                /\ forall i req e, cs !! i = Some (req, Raise e) ->
                     retried e = false -> r = Raise (api_failed e) /\ length cs = S i)
      as Hnext.
    { intros st2 Hrest Hretry.
      destruct (IH _ _ _ _ Hrest) as (cs & Hcalls & Hcs).
      exists ((req0, (create (service w) req0).1) :: cs).
      split; [rewrite Hcalls; cbn [calls after_call]; now rewrite <- app_assoc|].
      intros [|i] req e Hi Hr.
      - cbn in Hi. injection Hi as <- He.
        rewrite (Hretry e He) in Hr. discriminate.
      - cbn in Hi. destruct (Hcs i req e Hi Hr) as [-> Hlen].
        split; [reflexivity|]. cbn. now rewrite Hlen. }
    destruct ((create (service w) req0).1) as [c|e0] eqn:Hres; cbn [mbind result_bind] in Hrun.
    + destruct (first_content c) as [text|e1].
      * destruct (decode text) as [v|e2].
        -- eapply Hstop; [exact Hrun | reflexivity | discriminate].
        -- destruct (retried e2).
           ++ eapply Hnext; [exact Hrun | discriminate].
           ++ eapply Hstop; [exact Hrun | reflexivity | discriminate].
      * destruct (retried e1).
        -- eapply Hnext; [exact Hrun | discriminate].
        -- eapply Hstop; [exact Hrun | reflexivity | discriminate].
    + destruct (retried e0) eqn:Hr0.
      * eapply Hnext; [exact Hrun|]. intros e [= <-]. exact Hr0.
      * eapply Hstop; [exact Hrun | reflexivity |]. intros e [= <-] _. reflexivity.
Qed.

(** C4: in any run, whatever the budget, a service call that raised a
    transport failure is the last call of the run (no later invocation),
    and the run raises the fatal [RuntimeError] that wraps it. *)
Theorem transport_failure_aborts
        (self : OpenRouterClient) (user_prompt : str) (max_retries : Z)
        (w w' : world) (r : result T) (i : nat) (req : request) (msg : str) :
  generate_structured self user_prompt max_retries w = (r, w') ->
  calls w' !! (length (calls w) + i)%nat = Some (req, Raise (APIError msg)) ->
  r = Raise (RuntimeError (lit "API request failed: " ++ msg))
  /\ length (calls w') = (length (calls w) + i + 1)%nat.
Proof.
  intros Hrun Hcall.
  destruct (retry_loop_abort_is_last _ _ _ _ _ _ _ Hrun) as (cs & Hcalls & Hcs).
  rewrite Hcalls, lookup_app_r in Hcall by lia.
  replace (length (calls w) + i - length (calls w))%nat with i in Hcall by lia.
  destruct (Hcs i req (APIError msg) Hcall eq_refl) as [-> Hlen].
  split; [reflexivity|].
  rewrite Hcalls, length_app, Hlen. lia.
Qed.

End RetryLoop.

(** ** The list variant *)

Section ListGeneration.

Context {Svc : Type}.
Variable create : Svc -> request -> result completion * Svc.
Variable loads : str -> result json.
Variable dumps : json -> str.
Variable wrapper_schema : json -> json.
Variable wrapper_report : json -> str.

Abbreviation wrapper_model := (ListWrapper_model wrapper_schema wrapper_report).
Abbreviation task_wrapper :=
  (@ListWrapper_model Task Task_model wrapper_schema wrapper_report).

Lemma validate_items_Forall2 {T : Type} `{ResponseModel T} (xs : list json) (l : list T) :
  validate_items xs = Ok l <-> Forall2 (fun x v => model_validate x = Ok v) xs l.
Proof.
  revert l. induction xs as [|x xs IH]; intros l; cbn [validate_items].
  - split.
    + intros [= <-]. constructor.
    + intros Hall. inversion Hall. reflexivity.
  - destruct (model_validate x) as [v|e] eqn:Hv; cbn [mbind result_bind].
    + destruct (validate_items xs) as [l'|e'] eqn:Hl; cbn [mbind result_bind].
      * split.
        -- intros [= <-]. constructor; [exact Hv | now apply IH].
        -- intros Hall. inversion Hall as [|? v' ? l'' Hv' Hl'']; subst.
           apply IH in Hl''. congruence.
      * split; [discriminate|].
        intros Hall. inversion Hall as [|? v' ? l'' Hv' Hl'']; subst.
        apply IH in Hl''. discriminate.
    + split; [discriminate|].
      intros Hall. inversion Hall; subst. congruence.
Qed.

(** C6: the list variant is [generate_structured] at the wrapper model
    with the same budget, followed by reading [items]; the wrapper
    accepts exactly the objects whose field [items] is a list of valid
    items; and on the specification's reply for the item model [Task]
    the result is the one task named A with priority high, after one
    invocation. *)
Theorem generate_structured_list_unwraps :
  (forall (T : Type) (M : ResponseModel T) (self : OpenRouterClient)
          (user_prompt : str) (max_retries : Z) (w : world),
     generate_structured_list create loads dumps wrapper_schema wrapper_report
                              self user_prompt max_retries w
     = let '(r, w') :=
         generate_structured (H := wrapper_model) create loads dumps
                             self user_prompt max_retries w in
       (match r with Ok result => Ok (items result) | Raise e => Raise e end, w'))
  /\ (forall (T : Type) (M : ResponseModel T) (parsed_data : json) (l : list T),
        model_validate (ResponseModel := wrapper_model) parsed_data = Ok {| items := l |}
        <-> exists kvs xs,
              parsed_data = JDict kvs
              /\ dict_get (lit "items") kvs = Some (JList xs)
              /\ Forall2 (fun x v => model_validate x = Ok v) xs l)
  /\ (forall (self : OpenRouterClient) (user_prompt : str) (max_retries : Z)
             (w : world) (c : completion),
        let config := heap w (default_config self) in
        let m0 := initial_messages (H := task_wrapper) dumps config user_prompt in
        (1 <= max_retries)%Z ->
        (create (service w) (request_of config m0)).1 = Ok c ->
        first_content c = Ok (Some reply_items) ->
        loads reply_items = Ok parsed_items ->
        generate_structured_list create loads dumps wrapper_schema wrapper_report
                                 self user_prompt max_retries w
        = (Ok [{| name := lit "A"; priority := lit "high" |}],
           after_call create w (request_of config m0))).
Proof.
  split; [|split].
  - intros T M self user_prompt max_retries w. unfold generate_structured_list.
    destruct (generate_structured _ _ _ _ _ _ _) as [[result|e] w']; reflexivity.
  - intros T M parsed_data l. cbn [model_validate wrapper_model ListWrapper_model].
    unfold ListWrapper_validate. split.
    + intros Hok.
      destruct parsed_data as [| | | | |xs|kvs]; try discriminate.
      destruct (dict_get (lit "items") kvs) as [[| | | | |xs|]|] eqn:Hget; try discriminate.
      destruct (validate_items xs) as [l'|e] eqn:Hl.
      * injection Hok as ->. exists kvs, xs. repeat split; [exact Hget|].
        now apply validate_items_Forall2.
      * destruct e; discriminate.
    + intros (kvs & xs & -> & Hget & Hall).
      rewrite Hget. apply validate_items_Forall2 in Hall. now rewrite Hall.
  - intros self user_prompt max_retries w c config m0 Hn Hc Hf Hl.
    unfold generate_structured_list, generate_structured.
    assert (exists rest, range max_retries = 0%Z :: rest) as [rest ->].
    { unfold range. destruct (Z.to_nat max_retries) eqn:Hk; [lia|]. eexists. reflexivity. }
    cbn [retry_loop]. rewrite attempt_once_eq. cbv zeta. cbn [messages].
    fold config. fold m0. rewrite Hc. cbn [mbind result_bind]. rewrite Hf.
    assert (decode (H := task_wrapper) loads (Some reply_items)
            = Ok {| items := [{| name := lit "A"; priority := lit "high" |}] |}) as ->.
    { unfold decode. cbn [extract_json_of mbind result_bind].
      replace (_extract_json reply_items) with reply_items by (vm_compute; reflexivity).
      rewrite Hl. reflexivity. }
    reflexivity.
Qed.

End ListGeneration.

(** ** Configuration objects *)

Section ConfigFrame.

Context {Svc : Type}.
Variable create : Svc -> request -> result completion * Svc.
Variable lower : str -> str.
Variable loads : str -> result json.
Variable dumps : json -> str.
Variable wrapper_schema : json -> json.
Variable wrapper_report : json -> str.

Lemma same_but_model_refl (c : ModelConfig) : same_but_model c c.
Proof. repeat split. Qed.

Lemma same_but_model_set (m : option str) (c : ModelConfig) :
  same_but_model (set_model m c) c.
Proof. repeat split. Qed.

Lemma retry_loop_heap {T : Type} `{ResponseModel T}
      (self : OpenRouterClient) (max_retries : Z) :
  forall (attempts : list Z) (st : locals) (w : world (Svc := Svc)),
    heap (retry_loop create loads self max_retries attempts st w).2 = heap w.
Proof.
  induction attempts as [|attempt rest IH]; intros st w; [reflexivity|].
  cbn [retry_loop]. rewrite attempt_once_eq. cbv zeta.
  destruct (_ ≫= first_content) as [text|e].
  - destruct (decode loads text) as [v|e]; [reflexivity|].
    destruct (retried e); [rewrite IH|]; reflexivity.
  - destruct (retried e); [rewrite IH|]; reflexivity.
Qed.

(** The model name [__init__] stores in the configuration it is given. *)
Lemma init_heap (l0 : loc) (rnd : nat) (w : world (Svc := Svc)) (l : loc) :
  heap (__init__ lower (Some l0) rnd w).2 l
  = if is_ok (__init__ lower (Some l0) rnd w).1 && bool_decide (l = l0) then
      set_model
        (Some match model (heap w l0) with
              | None => random_choice rnd get_models
              | Some m => resolve_model lower m
              end)
        (heap w l0)
    else heap w l.
Proof.
  unfold __init__.
  destruct (environ_api_key w) as [[|k key]|]; [reflexivity| |reflexivity].
  destruct (model (heap w l0)) as [m|] eqn:Hm; cbn [fst snd is_ok andb].
  - destruct (bool_decide (resolve_model lower m ∈ MODELS));
      cbn [fst snd is_ok andb print_stderr store heap];
      (destruct (decide (l = l0)) as [->|Hne];
       [rewrite bool_decide_eq_true_2 by reflexivity; apply fn_lookup_insert
       |rewrite bool_decide_eq_false_2 by exact Hne;
        apply fn_lookup_insert_ne; congruence]).
  - cbn [store heap].
    destruct (decide (l = l0)) as [->|Hne].
    + rewrite bool_decide_eq_true_2 by reflexivity. apply fn_lookup_insert.
    + rewrite bool_decide_eq_false_2 by exact Hne.
      apply fn_lookup_insert_ne. congruence.
Qed.

(** C9, as the code has it: constructing a client on a configuration
    object writes the resolved (or the drawn) model name into that object
    and changes none of its other fields, nor any other object;
    [generate_text], [generate_structured] and [generate_structured_list]
    change no configuration object at all. *)
Theorem config_changes_only_model_at_init :
  (forall (l0 : loc) (rnd : nat) (w : world (Svc := Svc)) (l : loc),
     heap (__init__ lower (Some l0) rnd w).2 l
     = if is_ok (__init__ lower (Some l0) rnd w).1 && bool_decide (l = l0) then
         set_model
           (Some match model (heap w l0) with
                 | None => random_choice rnd get_models
                 | Some m => resolve_model lower m
                 end)
           (heap w l0)
       else heap w l)
  /\ (forall (l0 : loc) (rnd : nat) (w : world (Svc := Svc)) (l : loc),
        same_but_model (heap (__init__ lower (Some l0) rnd w).2 l) (heap w l))
  /\ (forall (self : OpenRouterClient) (user_prompt : str) (w : world),
        heap (generate_text create self user_prompt w).2 = heap w)
  /\ (forall (T : Type) (M : ResponseModel T) (self : OpenRouterClient)
             (user_prompt : str) (max_retries : Z) (w : world),
        heap (generate_structured create loads dumps self user_prompt max_retries w).2
        = heap w)
  /\ (forall (T : Type) (M : ResponseModel T) (self : OpenRouterClient)
             (user_prompt : str) (max_retries : Z) (w : world),
        heap (generate_structured_list create loads dumps wrapper_schema wrapper_report
                                       self user_prompt max_retries w).2
        = heap w).
Proof.
  split; [exact init_heap|].
  split.
  { intros l0 rnd w l. rewrite init_heap.
    destruct (is_ok _ && bool_decide (l = l0)) eqn:Hc.
    - apply andb_true_iff in Hc as [_ Hl]. apply bool_decide_eq_true_1 in Hl.
      subst l. apply same_but_model_set.
    - apply same_but_model_refl. }
  split.
  { intros self user_prompt w. unfold generate_text, chat_completions_create.
    destruct (create _ _) as [res svc']. cbn.
    destruct (res ≫= first_content); reflexivity. }
  split.
  { intros T M self user_prompt max_retries w. unfold generate_structured.
    apply retry_loop_heap. }
  intros T M self user_prompt max_retries w.
  unfold generate_structured_list.
  pose proof (retry_loop_heap (H := ListWrapper_model wrapper_schema wrapper_report)
                self max_retries (range max_retries)
                (Locals (initial_messages (H := ListWrapper_model wrapper_schema wrapper_report)
                           dumps (heap w (default_config self)) user_prompt) None None) w)
    as Hheap.
  unfold generate_structured.
  destruct (retry_loop _ _ _ _ _ _ _) as [[result|e] w']; exact Hheap.
Qed.

End ConfigFrame.

(** C9 as stated fails: after a client is built on the configuration
    [ModelConfig(model="deepseek", temperature=0.3)], the field [model] of
    that same object holds the full model name. *)
Lemma init_rewrites_caller_config :
  (__init__ ascii_lower (Some 0%nat) 0%nat (example_world tt)).1 = Ok example_client
  /\ model (heap (example_world tt) 0%nat) = Some (lit "deepseek")
  /\ model (heap (__init__ ascii_lower (Some 0%nat) 0%nat (example_world tt)).2 0%nat)
     = Some (lit "deepseek/deepseek-chat-v3.1:free")
  /\ heap (__init__ ascii_lower (Some 0%nat) 0%nat (example_world tt)).2 0%nat
     <> heap (example_world tt) 0%nat.
Proof.
  assert (model (heap (__init__ ascii_lower (Some 0%nat) 0%nat (example_world tt)).2 0%nat)
          = Some (lit "deepseek/deepseek-chat-v3.1:free")) as Hafter
      by (vm_compute; reflexivity).
  split; [vm_compute; reflexivity|].
  split; [vm_compute; reflexivity|].
  split; [exact Hafter|].
  intros Heq. rewrite Heq in Hafter. vm_compute in Hafter. discriminate Hafter.
Qed.

(** *** Validation and the order of floats *)

Section FloatOrder.

Lemma SFcompare_antisym (a b : spec_float) :
  SFcompare b a = option_map CompOpp (SFcompare a b).
Proof.
  destruct a as [sa|sa| |sa ma ea], b as [sb|sb| |sb mb eb]; cbn;
    try destruct sa; try destruct sb; try reflexivity;
    pose proof (Pos.compare_cont_antisym ma mb Eq) as Hm; cbn in Hm;
    rewrite (Z.compare_antisym ea eb);
    destruct (ea ?= eb)%Z; cbn; try reflexivity;
    rewrite <- Hm; try reflexivity; now rewrite CompOpp_involutive.
Qed.

Lemma SFcompare_None (a b : spec_float) :
  SFcompare a b = None -> a = S754_nan \/ b = S754_nan.
Proof.
  destruct a as [sa|sa| |sa ma ea], b as [sb|sb| |sb mb eb]; cbn; auto;
    try destruct sa; try destruct sb; discriminate.
Qed.

Lemma not_nan_spec (x : float) : is_nan x = false -> Prim2SF x <> S754_nan.
Proof.
  unfold is_nan. rewrite FloatAxioms.eqb_spec. intros Hx Hnan.
  rewrite Hnan in Hx. discriminate Hx.
Qed.

(** Away from NaN, [x < y] is the negation of [y <= x]. *)
Lemma ltb_negb_leb (x y : float) :
  is_nan x = false -> is_nan y = false ->
  (x <? y)%float = negb (y <=? x)%float.
Proof.
  intros Hx Hy. apply not_nan_spec in Hx, Hy.
  rewrite FloatAxioms.ltb_spec, FloatAxioms.leb_spec. unfold SFltb, SFleb.
  rewrite (SFcompare_antisym (Prim2SF x) (Prim2SF y)).
  destruct (SFcompare (Prim2SF x) (Prim2SF y)) as [[| |]|] eqn:Hc; try reflexivity.
  destruct (SFcompare_None _ _ Hc); contradiction.
Qed.

(** On configurations none of whose four numbers is NaN, [__post_init__]
    accepts exactly the configurations within the bounds. *)
Lemma post_init_ok_iff_within_bounds (c : ModelConfig) :
  is_nan (temperature c) = false ->
  is_nan (top_p c) = false ->
  is_nan (frequency_penalty c) = false ->
  is_nan (presence_penalty c) = false ->
  is_ok (__post_init__ c) = within_bounds c.
Proof.
  intros Ht Hp Hf Hr. unfold __post_init__, within_bounds.
  rewrite (ltb_negb_leb (temperature c) 0 Ht eq_refl),
          (ltb_negb_leb 2 (temperature c) eq_refl Ht),
          (ltb_negb_leb (top_p c) 0 Hp eq_refl),
          (ltb_negb_leb 1 (top_p c) eq_refl Hp),
          (ltb_negb_leb (frequency_penalty c) (-2) Hf eq_refl),
          (ltb_negb_leb 2 (frequency_penalty c) eq_refl Hf),
          (ltb_negb_leb (presence_penalty c) (-2) Hr eq_refl),
          (ltb_negb_leb 2 (presence_penalty c) eq_refl Hr).
  destruct (0 <=? temperature c)%float, (temperature c <=? 2)%float; try reflexivity.
  destruct (0 <=? top_p c)%float, (top_p c <=? 1)%float; try reflexivity.
  destruct (-2 <=? frequency_penalty c)%float, (frequency_penalty c <=? 2)%float;
    try reflexivity.
  destruct (-2 <=? presence_penalty c)%float, (presence_penalty c <=? 2)%float;
    try reflexivity.
  cbn. destruct (max_tokens c) as [n|]; [|reflexivity].
  rewrite (Z.ltb_antisym 1 n). now destruct (1 <=? n)%Z.
Qed.

End FloatOrder.

(** C8 fails on the code at a temperature that is not a number: both
    comparisons of [__post_init__] are false, so the configuration is
    accepted and the object is built, although its temperature is not in
    [0,2]. *)
Theorem post_init_accepts_nan_temperature :
  __post_init__ nan_config = Ok tt
  /\ within_bounds nan_config = false
  /\ (0 <=? temperature nan_config)%float = false
  /\ (ModelConfig_new nan_config (example_world tt)).1 = Ok 1%nat
  /\ heap (ModelConfig_new nan_config (example_world tt)).2 1%nat = nan_config.
Proof. repeat split; vm_compute; reflexivity. Qed.

(** ** The properties on concrete runs *)

Lemma prose_always_invalid :
  always_invalid (T := Task) (always reply_prose) MiniJson.loads.
Proof.
  intros s req.
  exists [Some reply_prose], reply_prose, (JSONDecodeError (lit "Expecting value")).
  repeat split; vm_compute; reflexivity.
Defined.

Lemma generate_structured_no_budget_witness :
  (0 <= 0)%Z
  /\ generate_structured (T := Task) (always reply_task) MiniJson.loads MiniJson.dumps
       example_client (lit "Create 3 project tasks") 0 (example_world tt)
     = (Raise (TypeError
                 (lit "ValidationError.__new__() missing 1 required positional argument: 'line_errors'")),
        example_world tt).
Proof.
  split; [lia|].
  apply (generate_structured_no_budget (T := Task) (always reply_task)
           MiniJson.loads MiniJson.dumps example_client
           (lit "Create 3 project tasks") 0 (example_world tt)).
  lia.
Defined.

Lemma generate_structured_budget_three_witness :
  always_invalid (T := Task) (always reply_prose) MiniJson.loads
  /\ exists (w' : world) (cs : list (request * result completion)) (e : exn),
       generate_structured (T := Task) (always reply_prose) MiniJson.loads MiniJson.dumps
         example_client (lit "Create 3 project tasks") 3 (example_world tt)
       = (Raise (exhausted 3 (Some e)), w')
       /\ calls w' = calls (example_world tt) ++ cs
       /\ length cs = 3%nat
       /\ retried e = true.
Proof.
  split; [exact prose_always_invalid|].
  apply (generate_structured_budget_three (T := Task) (always reply_prose)
           MiniJson.loads MiniJson.dumps example_client
           (lit "Create 3 project tasks") (example_world tt)).
  exact prose_always_invalid.
Defined.

Lemma exhaustion_raises_type_error_witness :
  (1 <= 3)%Z
  /\ always_invalid (T := Task) (always reply_prose) MiniJson.loads
  /\ exists (w' : world) (raw : str) (e : exn),
       generate_structured (T := Task) (always reply_prose) MiniJson.loads MiniJson.dumps
         example_client (lit "Create 3 project tasks") 3 (example_world tt)
       = (Raise (TypeError
                   (lit "ValidationError.__new__() missing 1 required positional argument: 'line_errors'")),
          w')
       /\ decode (T := Task) MiniJson.loads (Some raw) = Raise e.
Proof.
  split; [lia|].
  split; [exact prose_always_invalid|].
  destruct (exhaustion_raises_type_error (T := Task) (always reply_prose)
              MiniJson.loads MiniJson.dumps example_client
              (lit "Create 3 project tasks") 3 (example_world tt)
              ltac:(lia) prose_always_invalid)
    as (w' & req & c & raw & e & Hrun & _ & _ & Hd & _).
  exists w', raw, e. split; [exact Hrun | exact Hd].
Defined.

Lemma generate_structured_second_attempt_witness :
  (2 <= 3)%Z
  /\ _extract_json reply_fenced_partial <> reply_fenced_partial
  /\ exists w' : world,
       generate_structured (T := Task) scripted MiniJson.loads MiniJson.dumps
         example_client (lit "Create a task") 3 (example_world script_retry)
       = (Ok task_A, w')
       /\ length (calls w') = 2%nat
       /\ (req_messages <$> (fst <$> calls w')) !! 1%nat
          = Some (initial_messages (H := Task_model) MiniJson.dumps example_config
                    (lit "Create a task")
                  ++ [Message assistant (Some reply_fenced_partial);
                      Message user
                        (Some (error_msg (ValidationError (lit "validation error for Task"))))]).
Proof.
  split; [lia|].
  split; [vm_compute; discriminate|].
  destruct (generate_structured_second_attempt (T := Task) scripted
              MiniJson.loads MiniJson.dumps example_client (lit "Create a task") 3
              (example_world script_retry)
              [Some reply_fenced_partial] [Some reply_task]
              reply_fenced_partial reply_task
              (ValidationError (lit "validation error for Task")) task_A)
    as (w' & Hrun & Hcalls & _);
    [lia | vm_compute; reflexivity ..|].
  exists w'. split; [exact Hrun|].
  rewrite Hcalls. split; reflexivity.
Defined.

Lemma transport_failure_aborts_witness :
  outage_run.1
  = Raise (RuntimeError (lit "API request failed: " ++ lit "Connection error."))
  /\ length (calls outage_run.2)
     = (length (calls (example_world script_outage)) + 1 + 1)%nat.
Proof.
  assert (exists req : request,
            calls outage_run.2 !! (length (calls (example_world script_outage)) + 1)%nat
            = Some (req, Raise (APIError (lit "Connection error.")))) as [req Hcall]
      by (eexists; vm_compute; reflexivity).
  exact (transport_failure_aborts (T := Task) scripted MiniJson.loads MiniJson.dumps
           example_client (lit "Create a task") 5 (example_world script_outage)
           outage_run.2 outage_run.1 1%nat req (lit "Connection error.")
           (surjective_pairing outage_run) Hcall).
Defined.

Lemma generate_structured_list_unwraps_witness :
  (1 <= 3)%Z
  /\ MiniJson.loads reply_items = Ok parsed_items
  /\ generate_structured_list (T := Task) (always reply_items) MiniJson.loads
       MiniJson.dumps list_schema list_report example_client
       (lit "Create 3 project tasks") 3 (example_world tt)
     = (Ok [task_A],
        after_call (always reply_items) (example_world tt)
          (request_of example_config
             (initial_messages (H := ListWrapper_model (T := Task) list_schema list_report)
                MiniJson.dumps example_config (lit "Create 3 project tasks")))).
Proof.
  split; [lia|].
  split; [vm_compute; reflexivity|].
  apply (proj2 (proj2 (generate_structured_list_unwraps (always reply_items)
                         MiniJson.loads MiniJson.dumps list_schema list_report))
           example_client (lit "Create 3 project tasks") 3%Z (example_world tt)
           [Some reply_items]);
    [lia | vm_compute; reflexivity ..].
Defined.

(** * Further properties of the client *)

(** ** Runs of the retry loop *)

Section RetryRuns.

Context {Svc : Type}.
Variable create : Svc -> request -> result completion * Svc.
Variable loads : str -> result json.
Variable dumps : json -> str.
Context {T : Type} `{ResponseModel T}.

(** What a run of the loop over any list of attempts leaves: the calls
    it made, at most one per attempt, and how it ended. *)
Lemma retry_loop_run (self : OpenRouterClient) (max_retries : Z) :
  forall (attempts : list Z) (st : locals) (w w' : world (Svc := Svc)) (r : result T),
    retry_loop create loads self max_retries attempts st w = (r, w') ->
    exists cs : list (request * result completion),
      calls w' = calls w ++ cs
      /\ (length cs <= length attempts)%nat
      /\ (attempts <> [] -> cs <> [])
      /\ match r with
         | Ok v =>
             exists req c text,
               last cs = Some (req, Ok c)
               /\ first_content c = Ok text
               /\ decode loads text = Ok v
         | Raise err =>
             (exists e, retried e = false /\ err = api_failed e)
             \/ (length cs = length attempts
                 /\ exists le, err = exhausted max_retries le
                      /\ (le = last_error st \/ exists e, le = Some e /\ retried e = true))
         end.
Proof.
  induction attempts as [|attempt rest IH]; intros st w w' r Hrun.
  - cbn in Hrun. injection Hrun as <- <-.
    exists []. rewrite app_nil_r.
    split; [reflexivity|]. split; [cbn; lia|]. split; [congruence|].
    right. split; [reflexivity|]. eauto.
  - cbn [retry_loop] in Hrun. rewrite attempt_once_eq in Hrun. cbv zeta in Hrun.
    set (req0 := request_of _ _) in Hrun.
    set (res0 := (create (service w) req0).1) in Hrun.
    assert (calls (after_call create w req0) = calls w ++ [(req0, res0)]) as Hone
        by reflexivity.
    assert (forall st2 e2,
              retried e2 = true ->
              last_error st2 = Some e2 ->
              retry_loop create loads self max_retries rest st2 (after_call create w req0)
              = (r, w') ->
              exists cs, calls w' = calls w ++ cs
                /\ (length cs <= length (attempt :: rest))%nat
                /\ (attempt :: rest <> [] -> cs <> [])
                /\ match r with
                   | Ok v => exists req c text,
                       last cs = Some (req, Ok c) /\ first_content c = Ok text
                       /\ decode loads text = Ok v
                   | Raise err =>
                       (exists e, retried e = false /\ err = api_failed e)
                       \/ (length cs = length (attempt :: rest)
                           /\ exists le, err = exhausted max_retries le
                                /\ (le = last_error st
                                    \/ exists e, le = Some e /\ retried e = true))
                   end) as Hnext.
    { intros st2 e2 Hr2 Hle Hrest.
      destruct (IH _ _ _ _ Hrest) as (cs & Hcalls & Hlen & Hne & Hend).
      exists ((req0, res0) :: cs).
      split; [rewrite Hcalls, Hone, <- app_assoc; reflexivity|].
      split; [cbn; lia|]. split; [discriminate|].
      destruct r as [v|err].
      - destruct Hend as (req & c & text & Hlast & Hfc & Hd).
        exists req, c, text. split; [|auto].
        destruct cs as [|x cs']; [discriminate Hlast|].
        rewrite last_cons_cons. exact Hlast.
      - destruct Hend as [Habort|(Hall & le & -> & Hle')]; [left; exact Habort|].
        right. split; [cbn; now rewrite Hall|].
        exists le. split; [reflexivity|]. right.
        destruct Hle' as [->|Hsome]; [eauto | exact Hsome]. }
    destruct res0 as [c|e0] eqn:Hres; cbn [mbind result_bind] in Hrun.
    + destruct (first_content c) as [text|e1] eqn:Hfc.
      * destruct (decode loads text) as [v|e2] eqn:Hd.
        -- injection Hrun as <- <-.
           exists [(req0, Ok c)]. rewrite Hone.
           split; [reflexivity|]. split; [cbn; lia|]. split; [discriminate|].
           exists req0, c, text. auto.
        -- destruct (retried e2) eqn:Hr2.
           ++ eapply Hnext; [exact Hr2 | | exact Hrun]. reflexivity.
           ++ injection Hrun as <- <-.
              exists [(req0, Ok c)]. rewrite Hone.
              split; [reflexivity|]. split; [cbn; lia|]. split; [discriminate|].
              left. eauto.
      * destruct (retried e1) eqn:Hr1.
        -- eapply Hnext; [exact Hr1 | | exact Hrun]. reflexivity.
        -- injection Hrun as <- <-.
           exists [(req0, Ok c)]. rewrite Hone.
           split; [reflexivity|]. split; [cbn; lia|]. split; [discriminate|].
           left. eauto.
    + destruct (retried e0) eqn:Hr0.
      * eapply Hnext; [exact Hr0 | | exact Hrun]. reflexivity.
      * injection Hrun as <- <-.
        exists [(req0, Raise e0)]. rewrite Hone.
        split; [reflexivity|]. split; [cbn; lia|]. split; [discriminate|].
        left. eauto.
Qed.

(** X1: whatever the service does, [generate_structured] invokes it at
    most [max_retries] times, and at least once when the budget is
    positive. *)
Theorem generate_structured_within_budget
        (self : OpenRouterClient) (user_prompt : str) (max_retries : Z)
        (w : world (Svc := Svc)) :
  exists cs : list (request * result completion),
    calls (generate_structured create loads dumps self user_prompt max_retries w).2
    = calls w ++ cs
    /\ (Nat.min 1 (Z.to_nat max_retries) <= length cs <= Z.to_nat max_retries)%nat.
Proof.
  destruct (generate_structured create loads dumps self user_prompt max_retries w)
    as [r w'] eqn:Hrun.
  destruct (retry_loop_run _ _ _ _ _ _ _ Hrun) as (cs & Hcalls & Hlen & Hne & _).
  rewrite range_length in Hlen.
  exists cs. split; [exact Hcalls|]. split; [|exact Hlen].
  destruct (Z.to_nat max_retries) as [|n] eqn:Hn; [cbn; lia|].
  assert (cs <> []) as Hcs.
  { apply Hne. intros Hnil. apply (f_equal length) in Hnil.
    rewrite range_length, Hn in Hnil. discriminate Hnil. }
  destruct cs; [congruence | cbn; lia].
Qed.

(** X2: a call of [generate_structured] ends in one of three ways. It
    returns a value, which is what the last reply of the run decodes to;
    or it raises the [RuntimeError] that wraps an exception the loop does
    not retry; or the whole budget was spent, and then it raises the
    [TypeError] that the construction of the terminal [ValidationError]
    ends in. No other exception reaches the caller. *)
Theorem generate_structured_outcome
        (self : OpenRouterClient) (user_prompt : str) (max_retries : Z)
        (w : world (Svc := Svc)) :
  exists cs : list (request * result completion),
    calls (generate_structured create loads dumps self user_prompt max_retries w).2
    = calls w ++ cs
    /\ match (generate_structured create loads dumps self user_prompt max_retries w).1 with
       | Ok v =>
           exists req c text,
             last cs = Some (req, Ok c)
             /\ first_content c = Ok text
             /\ decode loads text = Ok v
       | Raise err =>
           (exists e, retried e = false
                      /\ err = RuntimeError (lit "API request failed: " ++ exn_str e))
           \/ (length cs = Z.to_nat max_retries
               /\ err = TypeError
                          (lit "ValidationError.__new__() missing 1 required positional argument: 'line_errors'"))
       end.
Proof.
  destruct (generate_structured create loads dumps self user_prompt max_retries w)
    as [r w'] eqn:Hrun.
  destruct (retry_loop_run _ _ _ _ _ _ _ Hrun) as (cs & Hcalls & _ & _ & Hend).
  exists cs. split; [exact Hcalls|]. cbn [fst].
  destruct r as [v|err]; [exact Hend|].
  destruct Hend as [Habort|(Hall & le & -> & _)]; [left; exact Habort|].
  right. rewrite range_length in Hall. split; [exact Hall|]. reflexivity.
Qed.

(** The requests of a run: the first carries the conversation the loop
    starts from, and each later one carries the conversation of the
    request before it followed by two messages. *)
Lemma retry_loop_requests (self : OpenRouterClient) (max_retries : Z) :
  forall (len k : nat) (st : locals) (w w' : world (Svc := Svc)) (r : result T),
    len = 0%nat \/ Z.of_nat (k + len) = max_retries ->
    retry_loop create loads self max_retries (Z.of_nat <$> seq k len) st w = (r, w') ->
    exists cs : list (request * result completion),
      calls w' = calls w ++ cs
      /\ (length cs <= len)%nat
      /\ (forall req res,
            cs !! 0%nat = Some (req, res) ->
            req = request_of (heap w (default_config self)) (messages st))
      /\ (forall i req res req' res',
            cs !! i = Some (req, res) ->
            cs !! S i = Some (req', res') ->
            exists t e,
              retried e = true
              /\ req' = request_of (heap w (default_config self))
                          (req_messages req
                           ++ [Message assistant t; Message user (Some (error_msg e))])
              /\ (forall c text,
                    res = Ok c -> first_content c = Ok text ->
                    t = text /\ decode loads text = Raise e)).
Proof.
  induction len as [|len IH]; intros k st w w' r Hk Hrun.
  - cbn in Hrun. injection Hrun as <- <-.
    exists []. rewrite app_nil_r.
    split; [reflexivity|]. split; [cbn; lia|].
    split; intros; rewrite lookup_nil in *; discriminate.
  - destruct Hk as [Hk|Hk]; [discriminate Hk|].
    cbn [seq fmap list_fmap retry_loop] in Hrun.
    rewrite attempt_once_eq in Hrun. cbv zeta in Hrun.
    set (cfg := heap w (default_config self)) in *.
    set (req0 := request_of cfg (messages st)) in Hrun.
    set (res0 := (create (service w) req0).1) in Hrun.
    assert (calls (after_call create w req0) = calls w ++ [(req0, res0)]) as Hone
        by reflexivity.
    assert (forall w2 r2,
              (r2, w2) = (r, w') -> w2 = after_call create w req0 ->
              exists cs, calls w' = calls w ++ cs
                /\ (length cs <= S len)%nat
                /\ (forall req res, cs !! 0%nat = Some (req, res) -> req = req0)
                /\ (forall i req res req' res',
                      cs !! i = Some (req, res) -> cs !! S i = Some (req', res') ->
                      exists t e, retried e = true
                        /\ req' = request_of cfg
                                    (req_messages req
                                     ++ [Message assistant t;
                                         Message user (Some (error_msg e))])
                        /\ (forall c text, res = Ok c -> first_content c = Ok text ->
                                           t = text /\ decode loads text = Raise e)))
      as Hstop.
    { intros w2 r2 Heq ->. injection Heq as <- <-.
      exists [(req0, res0)].
      split; [exact Hone|]. split; [cbn; lia|].
      split.
      - intros req res [= <- <-]. reflexivity.
      - intros [|i] req res req' res' _ Hi; cbn in Hi; discriminate Hi. }
    assert (forall e text,
              retried e = true ->
              (forall c text', res0 = Ok c -> first_content c = Ok text' ->
                               text = text' /\ decode loads text' = Raise e) ->
              retry_loop create loads self max_retries (Z.of_nat <$> seq (S k) len)
                         (on_invalid max_retries (Z.of_nat k) e text st)
                         (after_call create w req0) = (r, w') ->
              exists cs, calls w' = calls w ++ cs
                /\ (length cs <= S len)%nat
                /\ (forall req res, cs !! 0%nat = Some (req, res) -> req = req0)
                /\ (forall i req res req' res',
                      cs !! i = Some (req, res) -> cs !! S i = Some (req', res') ->
                      exists t e, retried e = true
                        /\ req' = request_of cfg
                                    (req_messages req
                                     ++ [Message assistant t;
                                         Message user (Some (error_msg e))])
                        /\ (forall c text, res = Ok c -> first_content c = Ok text ->
                                           t = text /\ decode loads text = Raise e)))
      as Hnext.
    { intros e text Hr Htext Hrest.
      destruct (IH (S k) _ _ _ _ ltac:(right; lia) Hrest)
        as (cs & Hcalls & Hlen & Hfirst & Hpairs).
      change (heap (after_call create w req0) (default_config self)) with cfg in *.
      exists ((req0, res0) :: cs).
      split; [rewrite Hcalls, Hone, <- app_assoc; reflexivity|].
      split; [cbn; lia|].
      split; [intros req res [= <- <-]; reflexivity|].
      intros [|i] req res req' res' Hi Hi'; cbn in Hi, Hi'.
      - injection Hi as <- <-.
        assert (len <> 0%nat) as Hlen0.
        { intros ->. apply lookup_lt_Some in Hi'. lia. }
        exists text, e. split; [exact Hr|]. split; [|exact Htext].
        rewrite (Hfirst _ _ Hi'). f_equal.
        unfold on_invalid. cbn [messages].
        replace (Z.of_nat k <? max_retries - 1)%Z with true
          by (symmetry; apply Z.ltb_lt; lia).
        reflexivity.
      - exact (Hpairs i req res req' res' Hi Hi'). }
    destruct res0 as [c|e0] eqn:Hres; cbn [mbind result_bind] in Hrun.
    + destruct (first_content c) as [text|e1] eqn:Hfc.
      * destruct (decode loads text) as [v|e2] eqn:Hd.
        -- eapply Hstop; [exact Hrun | reflexivity].
        -- destruct (retried e2) eqn:Hr2.
           ++ eapply Hnext; [exact Hr2 | | exact Hrun].
              intros c' text' [= <-] Hfc'. rewrite Hfc in Hfc'.
              injection Hfc' as <-. auto.
           ++ eapply Hstop; [exact Hrun | reflexivity].
      * destruct (retried e1) eqn:Hr1.
        -- eapply Hnext; [exact Hr1 | | exact Hrun].
           intros c' text' [= <-] Hfc'. rewrite Hfc in Hfc'. discriminate Hfc'.
        -- eapply Hstop; [exact Hrun | reflexivity].
    + destruct (retried e0) eqn:Hr0.
      * eapply Hnext; [exact Hr0 | | exact Hrun]. intros c' text' Hc'. discriminate Hc'.
      * eapply Hstop; [exact Hrun | reflexivity].
Qed.

(** X3: within one call of [generate_structured] the conversation only
    grows, and only at its end. The first request carries the two
    initial messages; every later request carries the conversation of
    the request before it followed by exactly two messages, an assistant
    message and a user message with the error text; when the earlier
    call returned a reply, the assistant message holds that raw reply and
    the error is the one it was rejected with. Every request is made with
    the client's model and parameters. *)
Theorem generate_structured_history_grows
        (self : OpenRouterClient) (user_prompt : str) (max_retries : Z)
        (w : world (Svc := Svc)) :
  let config := heap w (default_config self) in
  exists cs : list (request * result completion),
    calls (generate_structured create loads dumps self user_prompt max_retries w).2
    = calls w ++ cs
    /\ (forall req res,
          cs !! 0%nat = Some (req, res) ->
          req = request_of config (initial_messages dumps config user_prompt))
    /\ (forall i req res req' res',
          cs !! i = Some (req, res) ->
          cs !! S i = Some (req', res') ->
          exists t e,
            retried e = true
            /\ req' = request_of config
                        (req_messages req
                         ++ [Message assistant t; Message user (Some (error_msg e))])
            /\ (forall c text,
                  res = Ok c -> first_content c = Ok text ->
                  t = text /\ decode loads text = Raise e)).
Proof.
  intros config.
  destruct (generate_structured create loads dumps self user_prompt max_retries w)
    as [r w'] eqn:Hrun.
  unfold generate_structured, range in Hrun.
  destruct (retry_loop_requests self max_retries (Z.to_nat max_retries) 0 _ _ _ _
              ltac:(destruct (Z.to_nat max_retries) eqn:Hn; [left; reflexivity|right; lia])
              Hrun)
    as (cs & Hcalls & _ & Hfirst & Hpairs).
  exists cs. split; [exact Hcalls|]. split; [exact Hfirst | exact Hpairs].
Qed.

End RetryRuns.

(** ** Building a client *)

Section Construction.

Context {Svc : Type}.
Variable lower : str -> str.

(** Every alias names a model of the list. *)
Lemma alias_in_models (k v : str) : MODEL_ALIASES !! k = Some v -> v ∈ MODELS.
Proof.
  intros Hk. unfold MODEL_ALIASES in Hk.
  apply elem_of_list_to_map_2 in Hk.
  match type of Hk with
  | _ ∈ ?l => assert (Forall (fun kv : str * str => kv.2 ∈ MODELS) l) as HF
  end.
  { repeat (apply List.Forall_cons;
            [apply (bool_decide_unpack _); vm_compute; exact I|]).
    apply List.Forall_nil. }
  rewrite Forall_forall in HF. exact (HF _ Hk).
Qed.

Lemma random_choice_in_models (rnd : nat) : random_choice rnd MODELS ∈ MODELS.
Proof.
  unfold random_choice.
  destruct (MODELS !! _) as [m|] eqn:Hm; cbn [default].
  - exact (list_elem_of_lookup_2 _ _ _ Hm).
  - apply lookup_ge_None_1 in Hm.
    pose proof (Nat.mod_upper_bound rnd (length MODELS) ltac:(discriminate)) as Hlt.
    exfalso. exact (Nat.lt_irrefl _ (Nat.lt_le_trans _ _ _ Hlt Hm)).
Qed.

(** X4: without [OPENROUTER_API_KEY], or with an empty one, the
    constructor raises [ValueError] before it does anything else: no
    configuration object is created or rewritten, nothing is printed. *)
Theorem init_requires_api_key (config : option loc) (rnd : nat)
        (w : world (Svc := Svc)) :
  environ_api_key w = None \/ environ_api_key w = Some [] ->
  __init__ lower config rnd w
  = (Raise (ValueError (lit "API key not found. Set OPENROUTER_API_KEY environment variable or pass it to the constructor.")),
     w).
Proof.
  intros [Hk|Hk]; unfold __init__; rewrite Hk; reflexivity.
Qed.

(** X5: with the key set and no configuration given, the constructor
    always succeeds: it creates one new configuration object, which holds
    the defaults and a model drawn from [MODELS]; it prints no warning and
    leaves every object that existed as it was. *)
Theorem init_default_draws_listed_model (rnd : nat) (w : world (Svc := Svc))
        (k : N) (key : str) :
  environ_api_key w = Some (k :: key) ->
  exists m : str,
    m ∈ MODELS
    /\ (__init__ lower None rnd w).1 = Ok {| default_config := next_loc w |}
    /\ heap (__init__ lower None rnd w).2 (next_loc w)
       = set_model (Some m) ModelConfig_default
    /\ next_loc (__init__ lower None rnd w).2 = S (next_loc w)
    /\ stderr (__init__ lower None rnd w).2 = stderr w
    /\ forall l : loc, l <> next_loc w ->
         heap (__init__ lower None rnd w).2 l = heap w l.
Proof.
  intros Hk. exists (random_choice rnd MODELS).
  split; [apply random_choice_in_models|].
  unfold __init__. rewrite Hk.
  change (ModelConfig_new ModelConfig_default w)
    with (Ok (next_loc w), (alloc ModelConfig_default w).2).
  cbn [alloc snd heap]. rewrite fn_lookup_insert. cbn [model ModelConfig_default].
  cbn [fst snd store heap next_loc stderr].
  split; [reflexivity|]. split; [apply fn_lookup_insert|].
  split; [reflexivity|]. split; [reflexivity|].
  intros l Hl. rewrite !fn_lookup_insert_ne by congruence. reflexivity.
Qed.

(** X6: a configuration whose model is an alias, in any case that
    [lower] maps to the key, gets the full name the table gives; that
    name is in [MODELS], so no warning is printed. *)
Theorem init_resolves_alias (l0 : loc) (rnd : nat) (w : world (Svc := Svc))
        (k : N) (key m full : str) :
  environ_api_key w = Some (k :: key) ->
  model (heap w l0) = Some m ->
  MODEL_ALIASES !! lower m = Some full ->
  full ∈ MODELS
  /\ __init__ lower (Some l0) rnd w
     = (Ok {| default_config := l0 |},
        store l0 (set_model (Some full) (heap w l0)) w).
Proof.
  intros Hk Hm Ha.
  pose proof (alias_in_models _ _ Ha) as Hin.
  split; [exact Hin|].
  unfold __init__. rewrite Hk, Hm. unfold resolve_model. rewrite Ha.
  cbn [default]. rewrite bool_decide_eq_true_2 by exact Hin. reflexivity.
Qed.

(** X7: a model name that is no alias is kept as it was given; the
    constructor still succeeds, and prints exactly one warning line when
    the name is not in [MODELS] and none when it is. *)
Theorem init_keeps_unaliased_model (l0 : loc) (rnd : nat) (w : world (Svc := Svc))
        (k : N) (key m : str) :
  environ_api_key w = Some (k :: key) ->
  model (heap w l0) = Some m ->
  MODEL_ALIASES !! lower m = None ->
  (__init__ lower (Some l0) rnd w).1 = Ok {| default_config := l0 |}
  /\ model (heap (__init__ lower (Some l0) rnd w).2 l0) = Some m
  /\ stderr (__init__ lower (Some l0) rnd w).2
     = stderr w
       ++ (if bool_decide (m ∈ MODELS) then []
           else [lit "Warning: '" ++ m
                 ++ lit "' not in predefined list. Attempting anyway..."]).
Proof.
  intros Hk Hm Ha.
  unfold __init__. rewrite Hk, Hm. unfold resolve_model. rewrite Ha.
  cbn [default].
  destruct (bool_decide (m ∈ MODELS));
    cbn [fst snd store print_stderr heap stderr];
    rewrite fn_lookup_insert; cbn [model set_model];
    rewrite ?app_nil_r; repeat split; reflexivity.
Qed.

Lemma set_model_same (c : ModelConfig) (m : str) :
  model c = Some m -> set_model (Some m) c = c.
Proof. destruct c; cbn; intros ->; reflexivity. Qed.

(** Where no full name of [MODELS] is lowered to an alias key, a full
    name resolves to itself. *)
Lemma resolve_model_listed (m : str) :
  (forall v : str, v ∈ MODELS -> MODEL_ALIASES !! lower v = None) ->
  m ∈ MODELS -> resolve_model lower m = m.
Proof. intros Hl Hm. unfold resolve_model. rewrite (Hl _ Hm). reflexivity. Qed.

(** What a successful [__init__] leaves in the client's configuration: a
    model name that resolves to itself. *)
Lemma init_model_resolved (config : option loc) (rnd : nat)
      (w w1 : world (Svc := Svc)) (self : OpenRouterClient) :
  (forall v : str, v ∈ MODELS -> MODEL_ALIASES !! lower v = None) ->
  __init__ lower config rnd w = (Ok self, w1) ->
  environ_api_key w1 = environ_api_key w
  /\ (exists k key, environ_api_key w = Some (k :: key))
  /\ exists m, model (heap w1 (default_config self)) = Some m
               /\ resolve_model lower m = m.
Proof.
  intros Hl Hrun. unfold __init__ in Hrun.
  destruct (environ_api_key w) as [[|k key]|] eqn:Hk; [discriminate| |discriminate].
  assert (forall (c : loc) (w0 : world (Svc := Svc)),
            environ_api_key w0 = environ_api_key w ->
            match model (heap w0 c) with
            | None =>
                (Ok {| default_config := c |},
                 store c (set_model (Some (random_choice rnd get_models)) (heap w0 c)) w0)
            | Some m =>
                let w2 := store c (set_model (Some (resolve_model lower m)) (heap w0 c)) w0 in
                if bool_decide (resolve_model lower m ∈ MODELS) then
                  (Ok {| default_config := c |}, w2)
                else
                  (Ok {| default_config := c |},
                   print_stderr
                     (lit "Warning: '" ++ resolve_model lower m
                      ++ lit "' not in predefined list. Attempting anyway...") w2)
            end = (Ok self, w1) ->
            environ_api_key w1 = environ_api_key w
            /\ exists m, model (heap w1 (default_config self)) = Some m
                         /\ resolve_model lower m = m) as Hbody.
  { intros c w0 Henv Hb.
    destruct (model (heap w0 c)) as [m|] eqn:Hm.
    - assert (resolve_model lower (resolve_model lower m) = resolve_model lower m)
        as Hres.
      { unfold resolve_model at 2 3.
        destruct (MODEL_ALIASES !! lower m) as [full|] eqn:Ha; cbn [default].
        - apply resolve_model_listed; [exact Hl|]. exact (alias_in_models _ _ Ha).
        - unfold resolve_model. rewrite Ha. reflexivity. }
      cbv zeta in Hb.
      destruct (bool_decide (resolve_model lower m ∈ MODELS));
        injection Hb as <- <-;
        cbn [default_config print_stderr store heap environ_api_key];
        rewrite fn_lookup_insert; cbn [model set_model]; eauto.
    - injection Hb as <- <-.
      cbn [default_config store heap environ_api_key].
      rewrite fn_lookup_insert. cbn [model set_model].
      split; [exact Henv|]. eexists. split; [reflexivity|].
      apply resolve_model_listed; [exact Hl|]. apply random_choice_in_models. }
  destruct config as [l|].
  - destruct (Hbody l w eq_refl Hrun) as [He Hm]. rewrite He, Hk. eauto.
  - change (ModelConfig_new ModelConfig_default w)
      with (Ok (next_loc w), (alloc ModelConfig_default w).2) in Hrun.
    destruct (Hbody (next_loc w) (alloc ModelConfig_default w).2 eq_refl Hrun)
      as [He Hm].
    rewrite He. cbn [alloc snd environ_api_key]. rewrite Hk. eauto.
Qed.

(** X8: where [lower] maps no full name of [MODELS] to an alias key,
    resolution is stable: a second client built on the configuration of a
    client that was built successfully is built too, and leaves every
    configuration object as the first one left it. *)
Theorem init_again_keeps_config (config : option loc) (rnd rnd' : nat)
        (w w1 : world (Svc := Svc)) (self : OpenRouterClient) :
  (forall v : str, v ∈ MODELS -> MODEL_ALIASES !! lower v = None) ->
  __init__ lower config rnd w = (Ok self, w1) ->
  (__init__ lower (Some (default_config self)) rnd' w1).1 = Ok self
  /\ forall l : loc,
       heap (__init__ lower (Some (default_config self)) rnd' w1).2 l = heap w1 l.
Proof.
  intros Hl Hrun.
  destruct (init_model_resolved _ _ _ _ _ Hl Hrun)
    as (He & (k & key & Hk) & m & Hm & Hres).
  unfold __init__. rewrite He, Hk, Hm, Hres.
  rewrite (set_model_same _ _ Hm).
  destruct self as [c]. cbn [default_config] in *.
  destruct (bool_decide (m ∈ MODELS)); cbn [fst snd print_stderr store heap];
    (split; [reflexivity|]); intros l;
    (destruct (decide (l = c)) as [->|Hne];
     [apply fn_lookup_insert | apply fn_lookup_insert_ne; congruence]).
Qed.

End Construction.

(** No full model name is an alias when lowered. *)
Lemma ascii_lower_no_alias (v : str) :
  v ∈ MODELS -> MODEL_ALIASES !! ascii_lower v = None.
Proof.
  assert (Forall (fun v : str => MODEL_ALIASES !! ascii_lower v = None) MODELS) as HF.
  { repeat (apply List.Forall_cons; [vm_compute; reflexivity|]).
    apply List.Forall_nil. }
  rewrite Forall_forall in HF. exact (HF v).
Qed.

Lemma init_requires_api_key_witness :
  __init__ ascii_lower (Some 0%nat) 0 (keyless_world tt)
  = (Raise (ValueError (lit "API key not found. Set OPENROUTER_API_KEY environment variable or pass it to the constructor.")),
     keyless_world tt).
Proof.
  apply (init_requires_api_key ascii_lower (Some 0%nat) 0%nat (keyless_world tt)).
  left. reflexivity.
Defined.

Lemma init_default_draws_listed_model_witness :
  exists m : str,
    m ∈ MODELS
    /\ (__init__ ascii_lower None 5 (example_world tt)).1
       = Ok {| default_config := 1%nat |}
    /\ heap (__init__ ascii_lower None 5 (example_world tt)).2 1%nat
       = set_model (Some m) ModelConfig_default
    /\ next_loc (__init__ ascii_lower None 5 (example_world tt)).2 = 2%nat
    /\ stderr (__init__ ascii_lower None 5 (example_world tt)).2 = []
    /\ forall l : loc, l <> 1%nat ->
         heap (__init__ ascii_lower None 5 (example_world tt)).2 l
         = heap (example_world tt) l.
Proof.
  exact (init_default_draws_listed_model ascii_lower 5%nat (example_world tt)
           _ _ eq_refl).
Defined.

Lemma init_resolves_alias_witness :
  lit "deepseek/deepseek-chat-v3.1:free" ∈ MODELS
  /\ __init__ ascii_lower (Some 0%nat) 0 (example_world tt)
     = (Ok example_client,
        store 0%nat
              (set_model (Some (lit "deepseek/deepseek-chat-v3.1:free")) example_config)
              (example_world tt)).
Proof.
  apply (init_resolves_alias ascii_lower 0%nat 0%nat (example_world tt)
           115 (lit "k-or-test") (lit "deepseek")
           (lit "deepseek/deepseek-chat-v3.1:free")).
  - reflexivity.
  - reflexivity.
  - vm_compute. reflexivity.
Defined.

Lemma init_keeps_unaliased_model_witness :
  (__init__ ascii_lower (Some 0%nat) 0 (unlisted_world tt)).1 = Ok example_client
  /\ model (heap (__init__ ascii_lower (Some 0%nat) 0 (unlisted_world tt)).2 0%nat)
     = Some (lit "acme/model-x")
  /\ stderr (__init__ ascii_lower (Some 0%nat) 0 (unlisted_world tt)).2
     = [lit "Warning: 'acme/model-x' not in predefined list. Attempting anyway..."].
Proof.
  apply (init_keeps_unaliased_model ascii_lower 0%nat 0%nat (unlisted_world tt)
           115 (lit "k-or-test") (lit "acme/model-x")).
  - reflexivity.
  - reflexivity.
  - vm_compute. reflexivity.
Defined.

Lemma init_again_keeps_config_witness :
  (__init__ ascii_lower (Some 0%nat) 7 (resolved_world tt)).1 = Ok example_client
  /\ forall l : loc,
       heap (__init__ ascii_lower (Some 0%nat) 7 (resolved_world tt)).2 l
       = heap (resolved_world tt) l.
Proof.
  apply (init_again_keeps_config ascii_lower (Some 0%nat) 0%nat 7%nat
           (example_world tt) (resolved_world tt) example_client).
  - exact ascii_lower_no_alias.
  - vm_compute. reflexivity.
Defined.

(** ** Creating a configuration *)

(** X9: [ModelConfig(...)] with numbers none of which is NaN creates an
    object exactly when the fields are within the bounds: then it is one
    new object holding the fields, and every other object is as before;
    otherwise a [ValueError] is raised and nothing is created. *)
Theorem ModelConfig_new_validates {Svc : Type} (fields : ModelConfig)
        (w : world (Svc := Svc)) :
  is_nan (temperature fields) = false ->
  is_nan (top_p fields) = false ->
  is_nan (frequency_penalty fields) = false ->
  is_nan (presence_penalty fields) = false ->
  match (ModelConfig_new fields w).1 with
  | Ok l =>
      within_bounds fields = true
      /\ l = next_loc w
      /\ heap (ModelConfig_new fields w).2 l = fields
      /\ next_loc (ModelConfig_new fields w).2 = S (next_loc w)
      /\ forall l' : loc, l' <> l -> heap (ModelConfig_new fields w).2 l' = heap w l'
  | Raise e =>
      within_bounds fields = false
      /\ (exists msg : str, e = ValueError msg)
      /\ (ModelConfig_new fields w).2 = w
  end.
Proof.
  intros Ht Hp Hf Hr.
  pose proof (post_init_ok_iff_within_bounds fields Ht Hp Hf Hr) as Hb.
  unfold ModelConfig_new.
  destruct (__post_init__ fields) as [[]|e] eqn:Hpost; cbn [is_ok] in Hb.
  - cbn [alloc fst snd heap next_loc].
    split; [symmetry; exact Hb|]. split; [reflexivity|].
    split; [apply fn_lookup_insert|]. split; [reflexivity|].
    intros l' Hl'. apply fn_lookup_insert_ne. congruence.
  - cbn [fst snd]. split; [symmetry; exact Hb|]. split; [|reflexivity].
    unfold __post_init__ in Hpost.
    repeat match type of Hpost with
           | (if ?b then _ else _) = _ =>
               destruct b; [injection Hpost as <-; eauto|]
           | match ?o with Some _ => _ | None => _ end = _ =>
               destruct o; [|discriminate]
           end.
    discriminate.
Qed.

Lemma ModelConfig_new_validates_witness :
  within_bounds (batch_config (lit "mistral")) = true
  /\ 1%nat = 1%nat
  /\ heap (ModelConfig_new (batch_config (lit "mistral")) (example_world tt)).2 1%nat
     = batch_config (lit "mistral")
  /\ next_loc (ModelConfig_new (batch_config (lit "mistral")) (example_world tt)).2
     = 2%nat
  /\ forall l' : loc, l' <> 1%nat ->
       heap (ModelConfig_new (batch_config (lit "mistral")) (example_world tt)).2 l'
       = heap (example_world tt) l'.
Proof.
  exact (ModelConfig_new_validates (batch_config (lit "mistral")) (example_world tt)
           eq_refl eq_refl eq_refl eq_refl).
Defined.

(** ** Plain text generation and replies without content *)

Section Replies.

Context {Svc : Type}.
Variable create : Svc -> request -> result completion * Svc.
Variable loads : str -> result json.
Variable dumps : json -> str.

(** X10: [generate_text] makes exactly one call, whatever happens, and
    changes no configuration object.  The system message is sent only for
    a system prompt that is not empty.  The content of the first choice
    is returned as it is, [None] included; a failure of the service and a
    reply without choices both surface as [RuntimeError]. *)
Theorem generate_text_single_call (self : OpenRouterClient) (user_prompt : str)
        (w : world (Svc := Svc)) :
  exists (msgs : list message) (res : result completion),
    calls (generate_text create self user_prompt w).2
    = calls w ++ [(request_of (heap w (default_config self)) msgs, res)]
    /\ heap (generate_text create self user_prompt w).2 = heap w
    /\ match system_prompt (heap w (default_config self)) with
       | None | Some [] => msgs = [Message user (Some user_prompt)]
       | Some p => msgs = [Message system (Some p); Message user (Some user_prompt)]
       end
    /\ match res with
       | Ok (content :: _) =>
           (generate_text create self user_prompt w).1 = Ok content
       | Ok [] =>
           (generate_text create self user_prompt w).1
           = Raise (RuntimeError (lit "API request failed: list index out of range"))
       | Raise e =>
           (generate_text create self user_prompt w).1
           = Raise (RuntimeError (lit "API request failed: " ++ exn_str e))
       end.
Proof.
  unfold generate_text, chat_completions_create.
  set (msgs := _ ++ [Message user (Some user_prompt)]).
  destruct (create (service w) (request_of (heap w (default_config self)) msgs))
    as [res svc'] eqn:Hc.
  exists msgs, res.
  assert (match system_prompt (heap w (default_config self)) with
          | None | Some [] => msgs = [Message user (Some user_prompt)]
          | Some p => msgs = [Message system (Some p); Message user (Some user_prompt)]
          end) as Hmsgs.
  { subst msgs. destruct (system_prompt _) as [[|c s]|]; reflexivity. }
  destruct res as [[|content rest]|e]; cbn [mbind result_bind first_content fst snd calls heap];
    repeat split; try reflexivity; exact Hmsgs.
Qed.

Context {T : Type} `{ResponseModel T}.

(** X11: a reply whose first choice has no content ([None]) is not
    retried by [generate_structured]: the extraction fails on it, and the
    call ends after that one request with [RuntimeError], whatever the
    budget that is left. *)
Theorem generate_structured_none_content_aborts
        (self : OpenRouterClient) (user_prompt : str) (max_retries : Z)
        (w : world (Svc := Svc)) (rest : completion) :
  let config := heap w (default_config self) in
  let req := request_of config (initial_messages dumps config user_prompt) in
  (1 <= max_retries)%Z ->
  (create (service w) req).1 = Ok (None :: rest) ->
  generate_structured create loads dumps self user_prompt max_retries w
  = (Raise (RuntimeError
              (lit "API request failed: 'NoneType' object has no attribute 'strip'")),
     after_call create w req).
Proof.
  intros config req Hn Hc.
  unfold generate_structured, range.
  destruct (Z.to_nat max_retries) as [|n] eqn:Hz; [lia|].
  cbn [seq fmap list_fmap retry_loop].
  rewrite attempt_once_eq. cbv zeta. cbn [messages].
  fold config. fold req. rewrite Hc.
  cbn [mbind result_bind first_content]. reflexivity.
Qed.

End Replies.

Lemma generate_structured_none_content_aborts_witness :
  generate_structured (T := Task) scripted MiniJson.loads MiniJson.dumps
                      example_client (lit "Create a task") 3
                      (example_world [Ok [None]])
  = (Raise (RuntimeError
              (lit "API request failed: 'NoneType' object has no attribute 'strip'")),
     after_call scripted (example_world [Ok [None]])
       (request_of example_config
          (initial_messages (T := Task) MiniJson.dumps example_config
             (lit "Create a task")))).
Proof.
  apply (generate_structured_none_content_aborts scripted MiniJson.loads
           MiniJson.dumps (T := Task) example_client (lit "Create a task") 3
           (example_world [Ok [None]]) []).
  - lia.
  - reflexivity.
Defined.

(** ** Fenced replies *)

Section Fences.

Lemma rstrip_all_space (ws : str) :
  Forall (fun c => isspace c = true) ws -> rstrip ws = [].
Proof.
  induction 1 as [|c ws Hc _ IH]; [reflexivity|].
  rewrite rstrip_cons, IH, Hc. reflexivity.
Qed.

Lemma rstrip_app_spaces (a ws : str) :
  Forall (fun c => isspace c = true) ws -> rstrip (a ++ ws) = rstrip a.
Proof.
  intros Hws. induction a as [|c a IH].
  - apply rstrip_all_space, Hws.
  - cbn [app]. rewrite !rstrip_cons, IH. reflexivity.
Qed.

Lemma rstrip_snoc (a : str) (c : N) :
  isspace c = false -> rstrip (a ++ [c]) = a ++ [c].
Proof.
  intros Hc. induction a as [|x a IH].
  - cbn. rewrite Hc. reflexivity.
  - cbn [app]. rewrite rstrip_cons, IH. destruct a; reflexivity.
Qed.

Lemma lstrip_app_spaces (ws x : str) :
  Forall (fun c => isspace c = true) ws -> lstrip (ws ++ x) = lstrip x.
Proof.
  induction 1 as [|c ws Hc _ IH]; [reflexivity|].
  cbn [app lstrip]. rewrite Hc. exact IH.
Qed.

Lemma startswith_app (p s : str) : startswith (p ++ s) p = true.
Proof.
  induction p as [|c p IH]; [destruct s; reflexivity|].
  cbn [app startswith]. rewrite N.eqb_refl. exact IH.
Qed.

Lemma split_cons_ex (sep : N) (s : str) :
  exists l ls, split sep s = l :: ls.
Proof.
  destruct s as [|c s]; [cbn; eauto|].
  cbn [split]. destruct (c =? sep); [eauto|].
  destruct (split sep s); eauto.
Qed.

Lemma split_app (sep : N) (a b : str) :
  split sep (a ++ sep :: b) = split sep a ++ split sep b.
Proof.
  induction a as [|c a IH].
  - cbn [app split]. rewrite N.eqb_refl. reflexivity.
  - cbn [app split]. rewrite IH.
    destruct (c =? sep); [reflexivity|].
    destruct (split_cons_ex sep a) as (l & ls & ->). reflexivity.
Qed.

Lemma split_no_sep (sep : N) (a : str) :
  sep ∉ a -> split sep a = [a].
Proof.
  induction a as [|c a IH]; intros Hn; [reflexivity|].
  apply not_elem_of_cons in Hn as [Hne Hn].
  cbn [split].
  destruct (N.eqb_spec c sep) as [->|_]; [congruence|].
  rewrite (IH Hn). reflexivity.
Qed.

Lemma join_split (sep : N) (s : str) : join [sep] (split sep s) = s.
Proof.
  induction s as [|c s IH]; [reflexivity|].
  cbn [split].
  destruct (N.eqb_spec c sep) as [->|Hne].
  - destruct (split_cons_ex sep s) as (l & ls & Hs).
    rewrite Hs in *.
    change (join [sep] ([] :: l :: ls)) with (sep :: join [sep] (l :: ls)).
    rewrite IH. reflexivity.
  - destruct (split_cons_ex sep s) as (l & ls & Hs).
    rewrite Hs in *.
    destruct ls as [|l' ls]; rewrite <- IH; reflexivity.
Qed.

(** The text a fenced reply becomes once trimmed, and its lines. *)
Lemma strip_fenced (ws1 ws2 body : str) :
  Forall (fun c => isspace c = true) ws1 ->
  Forall (fun c => isspace c = true) ws2 ->
  strip (ws1 ++ (fence ++ body ++ fence) ++ ws2) = fence ++ body ++ fence.
Proof.
  intros H1 H2. unfold strip.
  rewrite app_assoc, (rstrip_app_spaces _ ws2 H2).
  change fence with (lit "``" ++ [96]) at 2.
  rewrite !app_assoc, rstrip_snoc by reflexivity.
  rewrite <- !app_assoc, (lstrip_app_spaces ws1 _ H1).
  reflexivity.
Qed.

Lemma fence_no_newline : nl ∉ fence.
Proof. apply (bool_decide_unpack _). vm_compute. exact I. Qed.

Lemma closing_fence_snoc (ls : list str) : closing_fence (ls ++ [fence]) = true.
Proof. unfold closing_fence. rewrite last_snoc. reflexivity. Qed.

(** X12: a reply that is one fenced block (an opening fence with any
    language tag on its line, the payload, a closing fence on a line of
    its own), with any white space around the block, is reduced to its
    payload, trimmed; the payload may itself have several lines. *)
Theorem extract_json_unwraps_fence (ws1 ws2 tag payload : str) :
  Forall (fun c => isspace c = true) ws1 ->
  Forall (fun c => isspace c = true) ws2 ->
  nl ∉ tag ->
  _extract_json (ws1 ++ (fence ++ (tag ++ [nl] ++ payload ++ [nl]) ++ fence) ++ ws2)
  = strip payload.
Proof.
  intros H1 H2 Htag. unfold _extract_json.
  rewrite (strip_fenced ws1 ws2 _ H1 H2), startswith_app.
  replace (fence ++ (tag ++ [nl] ++ payload ++ [nl]) ++ fence)
    with ((fence ++ tag) ++ nl :: (payload ++ nl :: fence))
    by (rewrite <- !app_assoc; reflexivity).
  rewrite !split_app.
  rewrite (split_no_sep nl (fence ++ tag)), (split_no_sep nl fence).
  - cbn [app]. rewrite skipn_cons, drop_0.
    rewrite closing_fence_snoc, removelast_last, join_split.
    reflexivity.
  - exact fence_no_newline.
  - apply not_elem_of_app. split; [exact fence_no_newline | exact Htag].
Qed.

(** X13: a fenced reply that was cut off before its closing fence still
    gives its payload: when the text ends in a character that is not
    white space and its last line is not a fence, only the opening line is
    dropped. *)
Theorem extract_json_unclosed_fence (tag payload : str) (c : N) :
  nl ∉ tag ->
  isspace c = false ->
  closing_fence (split nl (payload ++ [c])) = false ->
  _extract_json (fence ++ tag ++ [nl] ++ payload ++ [c]) = strip (payload ++ [c]).
Proof.
  intros Htag Hc Hopen. unfold _extract_json.
  assert (strip (fence ++ tag ++ [nl] ++ payload ++ [c])
          = fence ++ tag ++ [nl] ++ payload ++ [c]) as ->.
  { unfold strip. rewrite !app_assoc, rstrip_snoc by exact Hc. reflexivity. }
  rewrite startswith_app.
  replace (fence ++ tag ++ [nl] ++ payload ++ [c])
    with ((fence ++ tag) ++ nl :: (payload ++ [c]))
    by (rewrite <- !app_assoc; reflexivity).
  rewrite split_app, (split_no_sep nl (fence ++ tag)).
  - cbn [app]. rewrite skipn_cons, drop_0, Hopen, join_split. reflexivity.
  - apply not_elem_of_app. split; [exact fence_no_newline | exact Htag].
Qed.

Lemma length_lstrip (s : str) : (length (lstrip s) <= length s)%nat.
Proof.
  induction s as [|c s IH]; [reflexivity|].
  cbn [lstrip]. destruct (isspace c); cbn [length]; lia.
Qed.

Lemma length_rstrip (s : str) : (length (rstrip s) <= length s)%nat.
Proof.
  induction s as [|c s IH]; [reflexivity|].
  rewrite rstrip_cons. destruct (rstrip s) as [|x r].
  - destruct (isspace c); cbn [length]; lia.
  - cbn [length] in *. lia.
Qed.

Lemma length_strip (s : str) : (length (strip s) <= length s)%nat.
Proof.
  unfold strip. pose proof (length_lstrip (rstrip s)). pose proof (length_rstrip s). lia.
Qed.

Lemma length_join_removelast (sep : str) (ls : list str) :
  (length (join sep (removelast ls)) <= length (join sep ls))%nat.
Proof.
  induction ls as [|l [|l' ls] IH]; [reflexivity|cbn; lia|].
  change (removelast (l :: l' :: ls)) with (l :: removelast (l' :: ls)).
  change (join sep (l :: l' :: ls)) with (l ++ sep ++ join sep (l' :: ls)).
  destruct (removelast (l' :: ls)) as [|k ks] eqn:Hr.
  - cbn [join]. rewrite !length_app. lia.
  - change (join sep (l :: k :: ks)) with (l ++ sep ++ join sep (k :: ks)).
    rewrite !length_app. lia.
Qed.

(** Dropping the opening line of a text that is not empty leaves less
    text. *)
Lemma length_join_tail (x : str) :
  x <> [] -> (length (join [nl] (drop 1 (split nl x))) < length x)%nat.
Proof.
  intros Hx. pose proof (join_split nl x) as Hj.
  destruct (split_cons_ex nl x) as (l & ls & Hs). rewrite Hs in *.
  rewrite skipn_cons, drop_0.
  destruct ls as [|l' ls].
  - cbn [join length]. destruct x; [congruence|cbn; lia].
  - change (join [nl] (l :: l' :: ls)) with (l ++ [nl] ++ join [nl] (l' :: ls)) in Hj.
    rewrite <- Hj, !length_app. cbn [length]. lia.
Qed.

(** X14: extracting again from an extracted text changes nothing
    exactly when that text does not itself start with a fence: one
    extraction suffices for a reply with one fence, and a reply that
    still shows a fence afterwards loses more text each time. *)
Theorem extract_json_twice (text : str) :
  (_extract_json (_extract_json text) = _extract_json text
   <-> startswith (_extract_json text) fence = false)
  /\ (startswith (_extract_json text) fence = true ->
      (length (_extract_json (_extract_json text)) < length (_extract_json text))%nat).
Proof.
  assert (strip (_extract_json text) = _extract_json text) as Hfix.
  { unfold _extract_json.
    destruct (startswith (strip text) fence); apply strip_idemp. }
  set (x := _extract_json text) in *.
  assert (startswith x fence = true ->
          (length (_extract_json x) < length x)%nat) as Hshort.
  { intros Hf.
    assert (x <> []) as Hx by (intros Hnil; rewrite Hnil in Hf; discriminate).
    unfold _extract_json. rewrite Hfix, Hf.
    pose proof (length_join_tail x Hx) as Hlt.
    pose proof (length_join_removelast [nl] (drop 1 (split nl x))) as Hle.
    destruct (closing_fence (drop 1 (split nl x)));
      match goal with
      | |- (length (strip ?t) < _)%nat => pose proof (length_strip t)
      end; lia. }
  split; [split|exact Hshort].
  - intros Hsame. destruct (startswith x fence) eqn:Hf; [exfalso|reflexivity].
    specialize (Hshort eq_refl). rewrite Hsame in Hshort. lia.
  - intros Hclean. unfold _extract_json at 1. rewrite Hfix, Hclean. reflexivity.
Qed.

End Fences.

Lemma extract_json_unwraps_fence_witness :
  _extract_json ([space] ++ (fence ++ (lit "json" ++ [nl] ++ fenced_example_payload ++ [nl]) ++ fence)
                 ++ [space])
  = strip fenced_example_payload.
Proof.
  apply (extract_json_unwraps_fence [space] [space] (lit "json") fenced_example_payload).
  - repeat constructor.
  - repeat constructor.
  - apply (bool_decide_unpack _). vm_compute. exact I.
Defined.

Lemma extract_json_unclosed_fence_witness :
  _extract_json (fence ++ lit "json" ++ [nl] ++ lit "{" ++ [125])
  = strip (lit "{" ++ [125]).
Proof.
  apply (extract_json_unclosed_fence (lit "json") (lit "{") 125).
  - apply (bool_decide_unpack _). vm_compute. exact I.
  - reflexivity.
  - vm_compute. reflexivity.
Defined.

(** ** The conversation a structured generation starts from *)

Section Prompt.

Variable dumps : json -> str.
Context {T : Type} `{ResponseModel T}.

Lemma schema_instruction_end (d : str) :
  exists pre : str, schema_instruction d = pre ++ [46].
Proof.
  unfold schema_instruction.
  change (lit "Respond ONLY with the JSON object, no additional text or markdown formatting.")
    with (lit "Respond ONLY with the JSON object, no additional text or markdown formatting"
          ++ [46]).
  eexists. rewrite !app_assoc. reflexivity.
Qed.

Lemma strip_before_instruction (base d : str) :
  strip (base ++ [nl; nl] ++ schema_instruction d)
  = lstrip (base ++ [nl; nl] ++ schema_instruction d).
Proof.
  destruct (schema_instruction_end d) as [pre ->].
  unfold strip. rewrite !app_assoc, rstrip_snoc by reflexivity. reflexivity.
Qed.

(** X15: the conversation always opens with a system message and the
    user's prompt, verbatim.  Without a system prompt, or with an empty
    one, the system message is the schema instruction alone; a system
    prompt that starts with a character that is not white space comes
    first, whole, followed by an empty line and the instruction. *)
Theorem initial_messages_compose (config : ModelConfig) (user_prompt : str) :
  exists sys : str,
    initial_messages dumps config user_prompt
    = [Message system (Some sys); Message user (Some user_prompt)]
    /\ match system_prompt config with
       | None | Some [] => sys = schema_instruction (dumps model_json_schema)
       | Some (c :: p) =>
           isspace c = false ->
           sys = (c :: p) ++ [nl; nl] ++ schema_instruction (dumps model_json_schema)
       end.
Proof.
  unfold initial_messages. eexists. split; [reflexivity|].
  rewrite strip_before_instruction.
  destruct (system_prompt config) as [[|c p]|].
  - reflexivity.
  - intros Hc. cbn [app]. apply lstrip_fixed, Hc.
  - reflexivity.
Qed.

End Prompt.

(** ** The batch over several models *)

Section BatchRuns.

Context {Svc : Type}.
Variable create : Svc -> request -> result completion * Svc.
Variable lower : str -> str.
Variable loads : str -> result json.
Variable dumps : json -> str.
Context {T : Type} `{ResponseModel T} {D : Type}.
Variable model_dump : T -> D.
Variable now : nat -> str.

Abbreviation query_attempt := (query_attempt (T := T) create lower loads dumps).
Abbreviation query_model := (query_model (T := T) create lower loads dumps model_dump now).
Abbreviation query_models := (query_models (T := T) create lower loads dumps model_dump now).

Lemma retry_loop_env (self : OpenRouterClient) (max_retries : Z) :
  forall (attempts : list Z) (st : locals) (w : world (Svc := Svc)),
    environ_api_key (retry_loop (T := T) create loads self max_retries attempts st w).2
    = environ_api_key w.
Proof.
  induction attempts as [|attempt rest IH]; intros st w; [reflexivity|].
  cbn [retry_loop]. rewrite attempt_once_eq. cbv zeta.
  destruct (_ ≫= first_content) as [text|e].
  - destruct (decode loads text) as [v|e]; [reflexivity|].
    destruct (retried e); [rewrite IH|]; reflexivity.
  - destruct (retried e); [rewrite IH|]; reflexivity.
Qed.

Lemma init_env (config : option loc) (rnd : nat) (w : world (Svc := Svc)) :
  environ_api_key (__init__ lower config rnd w).2 = environ_api_key w
  /\ calls (__init__ lower config rnd w).2 = calls w.
Proof.
  unfold __init__.
  destruct (environ_api_key w) as [[|k key]|] eqn:Hk;
    [cbn [snd]; rewrite Hk; split; reflexivity| |cbn [snd]; rewrite Hk; split; reflexivity].
  destruct config as [l|].
  - destruct (model (heap w l)); [destruct (bool_decide _)|];
      cbn [snd print_stderr store environ_api_key calls]; rewrite Hk; split; reflexivity.
  - change (ModelConfig_new ModelConfig_default w)
      with (Ok (next_loc w), (alloc ModelConfig_default w).2).
    cbn [alloc snd heap]. rewrite fn_lookup_insert. cbn [model ModelConfig_default].
    cbn [snd store environ_api_key calls]. rewrite Hk. split; reflexivity.
Qed.

(** One attempt of the batch: the key is as before, and at most three
    calls were made. *)
Lemma query_attempt_frame (prompt model : str) (w : world (Svc := Svc)) :
  environ_api_key (query_attempt prompt model w).2 = environ_api_key w
  /\ exists cs, calls (query_attempt prompt model w).2 = calls w ++ cs
                /\ (length cs <= 3)%nat.
Proof.
  unfold query_attempt, ModelConfig_new.
  destruct (__post_init__ (batch_config model)) as [[]|e].
  2:{ split; [reflexivity|]. exists []. rewrite app_nil_r. split; [reflexivity|cbn; lia]. }
  cbn [alloc].
  set (w1 := World _ _ _ _ _ _).
  destruct (init_env (Some (next_loc w)) 0 w1) as [He Hc].
  destruct (__init__ lower (Some (next_loc w)) 0 w1) as [[client|e] w2] eqn:Hinit;
    cbn [fst snd] in He, Hc.
  2:{ cbn [snd]. split; [exact He|]. exists []. rewrite app_nil_r.
      split; [exact Hc|cbn; lia]. }
  destruct (generate_structured create loads dumps client prompt 3 w2)
    as [r w3] eqn:Hrun.
  cbn [snd]. split.
  - change w3 with (r, w3).2. rewrite <- Hrun. unfold generate_structured.
    rewrite retry_loop_env. exact He.
  - unfold generate_structured in Hrun.
    destruct (retry_loop_run create loads client 3 _ _ _ _ _ Hrun)
      as (cs & Hcs & Hlen & _).
    exists cs. rewrite Hcs, Hc. split; [reflexivity|].
    rewrite range_length in Hlen. exact Hlen.
Qed.

(** One iteration appends one entry, named after the model as it was
    given, and writes the list. *)
Lemma query_model_step (prompt : str) (s : batch_state) (model : str) :
  (exists body,
     answers (query_model prompt s model)
     = answers s ++ [Answer model (now (length (answers s))) body])
  /\ written (query_model prompt s model)
     = written s ++ [answers (query_model prompt s model)]
  /\ environ_api_key (batch_world (query_model prompt s model))
     = environ_api_key (batch_world s)
  /\ exists cs, calls (batch_world (query_model prompt s model))
                = calls (batch_world s) ++ cs
                /\ (length cs <= 3)%nat.
Proof.
  unfold query_model.
  set (w0 := print_stderr _ (batch_world s)).
  destruct (query_attempt_frame prompt model w0) as (He & cs & Hcs & Hlen).
  destruct (query_attempt prompt model w0) as [[v|e] w1];
    cbn [fst snd] in He, Hcs; cbn [answers written batch_world record_answer].
  - split; [eauto|]. split; [reflexivity|]. split; [exact He|]. eauto.
  - split; [eauto|]. split; [reflexivity|]. split; [exact He|]. eauto.
Qed.

(** X16: the batch records exactly one entry per model, in the order
    of the models and under the names as they were given, whether the
    model's generation succeeded or raised; after each model the file is
    written again, and holds the entries up to that model. *)
Theorem batch_one_answer_per_model (prompt : str) :
  forall (models : list str) (s : batch_state),
  exists (new : list (answer D)) (snaps : list (list (answer D))),
    answers (query_models prompt models s) = answers s ++ new
    /\ ans_model <$> new = models
    /\ written (query_models prompt models s) = written s ++ snaps
    /\ length snaps = length models
    /\ forall (i : nat) (snap : list (answer D)),
         snaps !! i = Some snap ->
         snap = take (length (answers s) + S i) (answers (query_models prompt models s)).
Proof.
  induction models as [|m rest IH]; intros s.
  - exists [], []. cbn. rewrite !app_nil_r.
    repeat split; try reflexivity. intros i snap Hi. discriminate.
  - destruct (query_model_step prompt s m) as ((body & Hans) & Hwr & _).
    destruct (IH (query_model prompt s m)) as (new & snaps & Hnew & Hnames & Hsn & Hlen & Hpre).
    change (query_models prompt (m :: rest) s)
      with (query_models prompt rest (query_model prompt s m)).
    exists (Answer m (now (length (answers s))) body :: new),
           (answers (query_model prompt s m) :: snaps).
    split; [rewrite Hnew, Hans, <- app_assoc; reflexivity|].
    split; [cbn; rewrite Hnames; reflexivity|].
    split; [rewrite Hsn, Hwr, <- app_assoc; reflexivity|].
    split; [cbn; rewrite Hlen; reflexivity|].
    intros [|i] snap Hi.
    + injection Hi as <-. rewrite Hnew.
      replace (length (answers s) + 1)%nat
        with (length (answers (query_model prompt s m)))
        by (rewrite Hans, length_app; reflexivity).
      rewrite take_app_length. reflexivity.
    + cbn in Hi. rewrite (Hpre i snap Hi). f_equal.
      rewrite Hans, length_app. cbn. lia.
Qed.

(** X17: however many models are queried, with however many failures,
    the batch makes at most three calls of the service per model. *)
Theorem batch_call_budget (prompt : str) :
  forall (models : list str) (s : batch_state),
  exists cs : list (request * result completion),
    calls (batch_world (query_models prompt models s)) = calls (batch_world s) ++ cs
    /\ (length cs <= 3 * length models)%nat.
Proof.
  induction models as [|m rest IH]; intros s.
  - exists []. rewrite app_nil_r. split; [reflexivity|cbn; lia].
  - destruct (query_model_step prompt s m) as (_ & _ & _ & cs1 & Hc1 & Hl1).
    destruct (IH (query_model prompt s m)) as (cs2 & Hc2 & Hl2).
    change (query_models prompt (m :: rest) s)
      with (query_models prompt rest (query_model prompt s m)).
    exists (cs1 ++ cs2). rewrite Hc2, Hc1, <- app_assoc.
    split; [reflexivity|]. rewrite length_app. cbn [length]. lia.
Qed.

(** One iteration without the key: the entry is the constructor's
    error, and no call is made. *)
Lemma query_model_keyless (prompt : str) (s : batch_state) (model : str) :
  environ_api_key (batch_world s) = None \/ environ_api_key (batch_world s) = Some [] ->
  answers (query_model prompt s model)
  = answers s
    ++ [Answer model (now (length (answers s)))
          (Error (lit "API key not found. Set OPENROUTER_API_KEY environment variable or pass it to the constructor."))]
  /\ calls (batch_world (query_model prompt s model)) = calls (batch_world s).
Proof.
  intros Hk. unfold query_model, query_attempt, ModelConfig_new.
  change (__post_init__ (batch_config model)) with (Ok (A := unit) tt).
  cbn [alloc]. unfold __init__.
  cbn [print_stderr environ_api_key].
  destruct Hk as [-> | ->];
    cbn [answers batch_world record_answer exn_str print_stderr calls];
    split; reflexivity.
Qed.

(** X18: without the API key the batch still runs to its end: every
    model gets an entry, each with the constructor's error text, and the
    service is never called. *)
Theorem batch_without_api_key (prompt : str) (models : list str) (s : batch_state) :
  environ_api_key (batch_world s) = None \/ environ_api_key (batch_world s) = Some [] ->
  calls (batch_world (query_models prompt models s)) = calls (batch_world s)
  /\ exists new : list (answer D),
       answers (query_models prompt models s) = answers s ++ new
       /\ ans_model <$> new = models
       /\ Forall (fun a => ans_body a
                           = Error (lit "API key not found. Set OPENROUTER_API_KEY environment variable or pass it to the constructor."))
                 new.
Proof.
  revert s. induction models as [|m rest IH]; intros s Hk.
  - split; [reflexivity|]. exists []. rewrite app_nil_r.
    split; [reflexivity|]. split; [reflexivity|constructor].
  - destruct (query_model_keyless prompt s m Hk) as [Hans Hcalls].
    destruct (query_model_step prompt s m) as (_ & _ & Henv & _).
    destruct (IH (query_model prompt s m)) as (Hc & new & Hnew & Hnames & Hall).
    { rewrite Henv. exact Hk. }
    change (query_models prompt (m :: rest) s)
      with (query_models prompt rest (query_model prompt s m)).
    split; [rewrite Hc; exact Hcalls|].
    eexists (_ :: new).
    split; [rewrite Hnew, Hans, <- app_assoc; reflexivity|].
    split; [cbn; rewrite Hnames; reflexivity|].
    constructor; [reflexivity | exact Hall].
Qed.

End BatchRuns.

Lemma batch_without_api_key_witness :
  calls (batch_world keyless_run) = []
  /\ exists new : list (answer Task),
       answers keyless_run = [] ++ new
       /\ ans_model <$> new = [lit "mistral"; lit "grok"]
       /\ Forall (fun a => ans_body a
                           = Error (lit "API key not found. Set OPENROUTER_API_KEY environment variable or pass it to the constructor."))
                 new.
Proof.
  apply (batch_without_api_key (T := Task) scripted ascii_lower MiniJson.loads
           MiniJson.dumps (fun t : Task => t) (fun _ : nat => lit "2025-01-01T00:00:00")
           (lit "Create a task") [lit "mistral"; lit "grok"] keyless_batch).
  left. reflexivity.
Defined.

(** ** Feedback without a reply *)

Section StaleFeedback.

Context {Svc : Type}.
Variable create : Svc -> request -> result completion * Svc.
Variable loads : str -> result json.
Variable dumps : json -> str.
Context {T : Type} `{ResponseModel T}.

(** X19: which failures are retried is decided by the class of the
    exception alone.  When the first call of the service itself raises a
    [JSONDecodeError] or a [ValidationError] and the budget is at least
    two, the call is not aborted: a second request follows, whose
    conversation is the initial one, an assistant message without content
    (no reply was received) and the feedback on that error. *)
Theorem generate_structured_retries_failed_call
        (self : OpenRouterClient) (user_prompt : str) (max_retries : Z)
        (w : world (Svc := Svc)) (e1 : exn) :
  let config := heap w (default_config self) in
  let m0 := initial_messages dumps config user_prompt in
  let m1 := m0 ++ [Message assistant None; Message user (Some (error_msg e1))] in
  (2 <= max_retries)%Z ->
  (create (service w) (request_of config m0)).1 = Raise e1 ->
  retried e1 = true ->
  exists (res2 : result completion) (cs : list (request * result completion)),
    calls (generate_structured create loads dumps self user_prompt max_retries w).2
    = calls w ++ (request_of config m0, Raise e1) :: (request_of config m1, res2) :: cs.
Proof.
  intros config m0 m1 Hn Hc1 Hr1.
  destruct (range_two max_retries Hn) as [rest Hrange].
  unfold generate_structured. rewrite Hrange.
  cbn [retry_loop]. rewrite attempt_once_eq. cbv zeta.
  cbn [messages]. fold config m0. rewrite Hc1.
  cbn [mbind result_bind]. rewrite Hr1.
  unfold on_invalid. cbn [messages response_text].
  replace (0 <? max_retries - 1)%Z with true by (symmetry; apply Z.ltb_lt; lia).
  fold m1.
  set (w1 := after_call create w (request_of config m0)).
  assert (calls w1 = calls w ++ [(request_of config m0, Raise e1)]) as Hw1.
  { unfold w1, after_call. cbn [calls]. rewrite Hc1. reflexivity. }
  rewrite attempt_once_eq. cbv zeta. cbn [messages].
  change (heap w1 (default_config self)) with config.
  set (req1 := request_of config m1).
  set (w2 := after_call create w1 req1).
  assert (calls w2 = calls w ++ [(request_of config m0, Raise e1);
                                 (req1, (create (service w1) req1).1)]) as Hw2.
  { unfold w2, after_call at 1. cbn [calls]. rewrite Hw1, <- app_assoc. reflexivity. }
  exists (create (service w1) req1).1.
  assert (forall (st : locals) ,
            exists cs,
              calls (retry_loop (T := T) create loads self max_retries rest st w2).2
              = calls w ++ (request_of config m0, Raise e1)
                        :: (req1, (create (service w1) req1).1) :: cs) as Hrest.
  { intros st.
    destruct (retry_loop (T := T) create loads self max_retries rest st w2)
      as [r w'] eqn:Hrun.
    destruct (retry_loop_run create loads self max_retries rest st w2 w' r Hrun)
      as (cs & Hcs & _).
    exists cs. cbn [snd]. rewrite Hcs, Hw2, <- app_assoc. reflexivity. }
  destruct ((create (service w1) req1).1 ≫= first_content) as [text|e].
  - destruct (decode loads text) as [v|e].
    + exists []. cbn [snd]. exact Hw2.
    + destruct (retried e); [apply Hrest|]. exists []. cbn [snd]. exact Hw2.
  - destruct (retried e); [apply Hrest|]. exists []. cbn [snd]. exact Hw2.
Qed.

End StaleFeedback.

Lemma generate_structured_retries_failed_call_witness :
  exists (res2 : result completion) (cs : list (request * result completion)),
    calls (generate_structured (T := Task) scripted MiniJson.loads MiniJson.dumps
             example_client (lit "Create a task") 3
             (example_world script_garbled)).2
    = calls (example_world script_garbled)
      ++ (request_of example_config
            (initial_messages (T := Task) MiniJson.dumps example_config
               (lit "Create a task")),
          Raise (JSONDecodeError (lit "Expecting value: line 1 column 1 (char 0)")))
         :: (request_of example_config
               (initial_messages (T := Task) MiniJson.dumps example_config
                  (lit "Create a task")
                ++ [Message assistant None;
                    Message user
                      (Some (error_msg
                               (JSONDecodeError
                                  (lit "Expecting value: line 1 column 1 (char 0)"))))]),
             res2)
         :: cs.
Proof.
  apply (generate_structured_retries_failed_call (T := Task) scripted MiniJson.loads
           MiniJson.dumps example_client (lit "Create a task") 3
           (example_world script_garbled)
           (JSONDecodeError (lit "Expecting value: line 1 column 1 (char 0)"))).
  - lia.
  - reflexivity.
  - reflexivity.
Defined.
